(** * csv2mysql: type inference and streaming load of a CSV file

    A shallow embedding of [SQL_Scripts/csv2mysql/csv2mysql.py] and the
    properties of its type classifier, column type aggregator, header
    normalizer, schema generator and load loop.

    Conventions of the embedding:
    - a Python [str] is a [string]; a CSV file is the list of records
      [csv.reader] yields from it, each a list of fields;
    - Python integers are [Z]; positions produced by [enumerate] are [nat];
    - an exception is a value of [exn]; a computation that may raise has
      type [result A];
    - [collections.defaultdict] is a [gmap] read with a default;
    - the calls made on the MySQLdb connection and cursor are recorded, in
      order, in a trace of [call]s;
    - what the interpreter provides ([int], [float], [time.strptime],
      [str.lower], [re.sub]) is an interface, [PyRuntime], with an
      executable instance for ASCII text. *)

From Stdlib Require Import ZArith List String Ascii Lia Bool DecimalString.
From Stdlib Require DecimalNat.
From stdpp Require Import base gmap strings list.
From Equations Require Import Equations.
Import ListNotations.
Local Open Scope string_scope.
Local Open Scope list_scope.

(** ** Exceptions and results *)

Inductive exn : Type :=
| ValueError
| IndexError
| UnboundLocalError
| ZeroDivisionError.

Inductive result (A : Type) : Type :=
| Ok (a : A)
| Raise (e : exn).

Arguments Ok {A} a.
Arguments Raise {A} e.

Definition rbind {A B : Type} (m : result A) (k : A -> result B) : result B :=
  match m with
  | Ok a => k a
  | Raise e => Raise e
  end.

Notation "x <- m ;; k" := (rbind m (fun x => k))
  (at level 100, m at next level, right associativity).

(** [try: m / except ValueError: handler / else: body]. Any other exception
    leaves the statement. *)
Definition try_except_ValueError {A B : Type}
    (m : result A) (handler : result B) (body : A -> result B) : result B :=
  match m with
  | Ok a => body a
  | Raise ValueError => handler
  | Raise e => Raise e
  end.

(** A builtin that, on a [str], either returns or raises [ValueError]. *)
Definition or_ValueError {A : Type} (o : option A) : result A :=
  match o with
  | Some a => Ok a
  | None => Raise ValueError
  end.

(** ** The interpreter's builtins

    The program calls them on values of type [str] only (the fields that
    [csv.reader] yields), where each of [int], [float] and [time.strptime]
    either returns or raises [ValueError]: the interface gives them an
    optional or boolean result and [or_ValueError] turns it into the
    exception. *)

Class PyRuntime : Type := {
  (** [int(s)]: the integer, or [None] for [ValueError]. *)
  py_int : string -> option Z;
  (** [float(s)]: whether the conversion succeeds ([false]: [ValueError]). *)
  py_float : string -> bool;
  (** [time.strptime(s, fmt)]: whether it succeeds ([false]: [ValueError]). *)
  py_strptime : string -> string -> bool;
  (** [s.lower()]. *)
  py_lower : string -> string;
  (** [re.sub('\W+', repl, s)]. *)
  re_sub_nonword : string -> string -> string
}.

(** ** Builtins that do not depend on the character set *)

(** [str(n)] for a count. *)
Definition str_of_nat (n : nat) : string :=
  NilEmpty.string_of_uint (Nat.to_uint n).

Fixpoint lstrip_char (c : ascii) (l : list ascii) : list ascii :=
  match l with
  | [] => []
  | x :: l' => if Ascii.eqb x c then lstrip_char c l' else l
  end.

(** [s.strip(c)] for a one-character [c]. *)
Definition strip_char (c : ascii) (s : string) : string :=
  string_of_list_ascii
    (rev (lstrip_char c (rev (lstrip_char c (list_ascii_of_string s))))).

(** [sep.join(l)]. *)
Fixpoint join (sep : string) (l : list string) : string :=
  match l with
  | [] => ""
  | [x] => x
  | x :: l' => x +:+ sep +:+ join sep l'
  end.

(** ** The builtins on ASCII text *)

Module AsciiText.

Definition code (c : ascii) : nat := nat_of_ascii c.

Definition in_range (lo hi : nat) (c : ascii) : bool :=
  Nat.leb lo (code c) && Nat.leb (code c) hi.

Definition is_digit : ascii -> bool := in_range 48 57.
Definition is_upper : ascii -> bool := in_range 65 90.
Definition is_lower : ascii -> bool := in_range 97 122.

(** What [\w] matches. *)
Definition is_word (c : ascii) : bool :=
  is_digit c || is_upper c || is_lower c || Ascii.eqb c "_".

(** What [str.strip()] and [\s] take for white space. *)
Definition is_space (c : ascii) : bool :=
  in_range 9 13 c || in_range 28 32 c.

Definition digit_val (c : ascii) : nat := code c - 48.

Definition lower_char (c : ascii) : ascii :=
  if is_upper c then ascii_of_nat (code c + 32) else c.

Definition lower (s : string) : string :=
  string_of_list_ascii (map lower_char (list_ascii_of_string s)).

Fixpoint lstrip (l : list ascii) : list ascii :=
  match l with
  | [] => []
  | c :: l' => if is_space c then lstrip l' else l
  end.

Definition strip (l : list ascii) : list ascii :=
  rev (lstrip (rev (lstrip l))).

(** [digit (["_"] digit)*], with its value. *)
Fixpoint read_digits (acc : Z) (after_digit : bool) (l : list ascii)
    : option Z :=
  match l with
  | [] => if after_digit then Some acc else None
  | c :: l' =>
      if is_digit c
      then read_digits (10 * acc + Z.of_nat (digit_val c)) true l'
      else if Ascii.eqb c "_" && after_digit
      then read_digits acc false l'
      else None
  end.

Definition digitpart (l : list ascii) : option Z := read_digits 0 false l.

(** [int(s)] in base 10: white space around, a sign, a digit part. *)
Definition int_of (s : string) : option Z :=
  match strip (list_ascii_of_string s) with
  | "+"%char :: l => digitpart l
  | "-"%char :: l => option_map Z.opp (digitpart l)
  | l => digitpart l
  end.

Fixpoint span (p : ascii -> bool) (l : list ascii)
    : list ascii * list ascii :=
  match l with
  | [] => ([], [])
  | c :: l' =>
      if p c then let '(a, b) := span p l' in (c :: a, b) else ([], l)
  end.

Definition digit_or_underscore (c : ascii) : bool :=
  is_digit c || Ascii.eqb c "_".

Definition is_Some_b {A : Type} (o : option A) : bool :=
  match o with Some _ => true | None => false end.

Definition unsigned (l : list ascii) : list ascii :=
  match l with
  | "+"%char :: l' => l'
  | "-"%char :: l' => l'
  | _ => l
  end.

(** [exponent ::= ("e" | "E") [sign] digitpart], or nothing. *)
Definition exponent_ok (l : list ascii) : bool :=
  match l with
  | [] => true
  | c :: l' =>
      (Ascii.eqb c "e" || Ascii.eqb c "E")
      && is_Some_b (digitpart (unsigned l'))
  end.

(** [number ::= [digitpart] "." digitpart | digitpart ["."]], then an
    optional exponent. *)
Definition floatnumber_ok (l : list ascii) : bool :=
  let '(ip, r1) := span digit_or_underscore l in
  match r1 with
  | "."%char :: r2 =>
      let '(fp, r3) := span digit_or_underscore r2 in
      match ip, fp with
      | [], [] => false
      | [], _ => is_Some_b (digitpart fp) && exponent_ok r3
      | _, [] => is_Some_b (digitpart ip) && exponent_ok r3
      | _, _ =>
          is_Some_b (digitpart ip) && is_Some_b (digitpart fp)
          && exponent_ok r3
      end
  | _ => is_Some_b (digitpart ip) && exponent_ok r1
  end.

Definition special_float (l : list ascii) : bool :=
  let w := string_of_list_ascii (map lower_char l) in
  String.eqb w "inf" || String.eqb w "infinity" || String.eqb w "nan".

(** [float(s)]: white space around, a sign, then a number, an infinity or
    a nan. *)
Definition float_ok (s : string) : bool :=
  let l := unsigned (strip (list_ascii_of_string s)) in
  special_float l || floatnumber_ok l.

(** [re.sub('\W+', repl, s)]: every maximal run of non-word characters
    becomes one [repl]. *)
Fixpoint sub_runs (repl : list ascii) (in_run : bool) (l : list ascii)
    : list ascii :=
  match l with
  | [] => []
  | c :: l' =>
      if is_word c then c :: sub_runs repl false l'
      else if in_run then sub_runs repl true l'
      else repl ++ sub_runs repl true l'
  end.

Definition sub_nonword (repl s : string) : string :=
  string_of_list_ascii
    (sub_runs (list_ascii_of_string repl) false (list_ascii_of_string s)).

End AsciiText.

(** ** [time.strptime] on ASCII text

    [_strptime] turns the format into a regular expression, takes the
    first match at the start of the string, refuses a match that leaves
    characters unread, and then builds the date, which fails when the day
    does not exist. *)

Module Strptime.
Import AsciiText.

Inductive item : Type :=
| Lit (c : ascii)
| Spaces
| Field (d : ascii).

(** A run of white space in the format is one [\s+]; [%x] is a field. *)
Fixpoint compile (after_space : bool) (fmt : list ascii)
    : option (list item) :=
  match fmt with
  | [] => Some []
  | "%"%char :: [] => None
  | "%"%char :: d :: fmt' => option_map (cons (Field d)) (compile false fmt')
  | c :: fmt' =>
      if is_space c
      then if after_space then compile true fmt'
           else option_map (cons Spaces) (compile true fmt')
      else option_map (cons (Lit c)) (compile false fmt')
  end.

(** One alternative of a field: a literal lead, then [width] digits whose
    value lies in [lo..hi]. *)
Record alt : Type := { lead : list ascii; width : nat; lo : N; hi : N }.

Definition digits (w : nat) (l h : N) : alt :=
  {| lead := []; width := w; lo := l; hi := h |}.

(** The alternatives of each directive, in the order the regular
    expression tries them. *)
Definition directive (d : ascii) : option (list alt) :=
  if Ascii.eqb d "Y" then Some [digits 4 0 9999]
  else if Ascii.eqb d "m" then Some [digits 2 10 12; digits 2 1 9; digits 1 1 9]
  else if Ascii.eqb d "d" then
    Some [digits 2 30 31; digits 2 10 29; digits 2 1 9; digits 1 1 9;
          {| lead := [" "%char]; width := 1; lo := 1; hi := 9 |}]
  else if Ascii.eqb d "H" then Some [digits 2 20 23; digits 2 0 19; digits 1 0 9]
  else if Ascii.eqb d "M" then Some [digits 2 0 59; digits 1 0 9]
  else if Ascii.eqb d "S" then Some [digits 2 60 61; digits 2 0 59; digits 1 0 9]
  else if Ascii.eqb d "f" then
    Some [digits 6 0 999999; digits 5 0 99999; digits 4 0 9999;
          digits 3 0 999; digits 2 0 99; digits 1 0 9]
  else None.

Fixpoint take_lit (p l : list ascii) : option (list ascii) :=
  match p, l with
  | [], _ => Some l
  | c :: p', x :: l' => if Ascii.eqb c x then take_lit p' l' else None
  | _ :: _, [] => None
  end.

Fixpoint take_digits (k : nat) (acc : N) (l : list ascii)
    : option (N * list ascii) :=
  match k with
  | 0 => Some (acc, l)
  | S k' =>
      match l with
      | c :: l' =>
          if is_digit c then take_digits k' (10 * acc + N.of_nat (digit_val c))%N l'
          else None
      | [] => None
      end
  end.

Definition match_alt (a : alt) (l : list ascii) : option (N * list ascii) :=
  match take_lit (lead a) l with
  | None => None
  | Some r =>
      match take_digits (width a) 0 r with
      | None => None
      | Some (v, rest) =>
          if N.leb (lo a) v && N.leb v (hi a) then Some (v, rest)
          else None
      end
  end.

(** What is left after [\s+], the longest run first. *)
Fixpoint space_splits (l : list ascii) : list (list ascii) :=
  match l with
  | [] => []
  | c :: l' => if is_space c then space_splits l' ++ [l'] else []
  end.

(** Every way the items match a prefix of [l], in the order a backtracking
    matcher finds them: the captured fields and the unread rest. *)
Fixpoint match_items (its : list item) (l : list ascii)
    : list (list (ascii * N) * list ascii) :=
  match its with
  | [] => [([], l)]
  | Lit c :: its' =>
      match l with
      | x :: l' =>
          if Ascii.eqb (lower_char x) (lower_char c)
          then match_items its' l' else []
      | [] => []
      end
  | Spaces :: its' => flat_map (match_items its') (space_splits l)
  | Field d :: its' =>
      match directive d with
      | None => []
      | Some alts =>
          flat_map
            (fun a =>
               match match_alt a l with
               | None => []
               | Some (v, rest) =>
                   map (fun '(cs, r) => ((d, v) :: cs, r))
                       (match_items its' rest)
               end)
            alts
      end
  end.

Fixpoint field (d : ascii) (cs : list (ascii * N)) : option N :=
  match cs with
  | [] => None
  | (d', v) :: cs' => if Ascii.eqb d d' then Some v else field d cs'
  end.

Definition is_leap (y : N) : bool :=
  (N.eqb (y mod 4) 0 && (negb (N.eqb (y mod 100) 0) || N.eqb (y mod 400) 0))%N.

Definition days_in_month (y m : N) : N :=
  (match m with
   | 2 => if is_leap y then 29 else 28
   | 4 | 6 | 9 | 11 => 30
   | _ => 31
   end)%N.

(** [datetime_date(year, month, day)] exists. A missing year is 1900, or
    1904 for a 29th of February. *)
Definition valid_date (cs : list (ascii * N)) : bool :=
  let m := default 1%N (field "m" cs) in
  let d := default 1%N (field "d" cs) in
  let y :=
    match field "Y" cs with
    | Some y => y
    | None => if N.eqb m 2 && N.eqb d 29 then 1904%N else 1900%N
    end in
  N.leb 1 y && N.leb d (days_in_month y m).

Definition strptime_ok (s fmt : string) : bool :=
  match compile false (list_ascii_of_string fmt) with
  | None => false
  | Some its =>
      match match_items its (list_ascii_of_string s) with
      | (cs, []) :: _ => valid_date cs
      | _ => false
      end
  end.

End Strptime.

#[export] Instance ascii_runtime : PyRuntime := {
  py_int := AsciiText.int_of;
  py_float := AsciiText.float_ok;
  py_strptime := Strptime.strptime_ok;
  py_lower := AsciiText.lower;
  re_sub_nonword := AsciiText.sub_nonword
}.

(** ** The calls made on the database connection and its cursor *)

Inductive call : Type :=
| Connect (host user passwd : string)
| SelectDb (database : string)
| Execute (sql : string) (args : option (list string))
| Commit.

(** A computation that makes calls and then returns or raises: the calls
    made, in order, and the outcome. *)
Definition io (A : Type) : Type := (list call * result A)%type.

Definition io_ret {A : Type} (a : A) : io A := ([], Ok a).

Definition io_bind {A B : Type} (m : io A) (k : A -> io B) : io B :=
  match m with
  | (t, Ok a) => let '(t', r) := k a in (t ++ t', r)
  | (t, Raise e) => (t, Raise e)
  end.

Definition emit (c : call) : io unit := ([c], Ok tt).

Definition lift {A : Type} (r : result A) : io A := ([], r).

Notation "x <~ m ;; k" := (io_bind m (fun x => k))
  (at level 100, m at next level, right associativity).

(** ** Python operations the program uses *)

Definition nl : string := String (ascii_of_nat 10) EmptyString.

(** [l[i]] on a list, [i >= 0]. *)
Definition index {A : Type} (l : list A) (i : nat) : result A :=
  match l !! i with
  | Some a => Ok a
  | None => Raise IndexError
  end.

(** Reading a local variable that may not have been assigned. *)
Definition local {A : Type} (v : option A) : result A :=
  match v with
  | Some a => Ok a
  | None => Raise UnboundLocalError
  end.

(** [a % b]: the sign of the divisor, as [Z.modulo]. *)
Definition py_mod (a b : Z) : result Z :=
  if (b =? 0)%Z then Raise ZeroDivisionError else Ok (a mod b)%Z.

(** [x in l]. *)
Definition elem (x : string) (l : list string) : bool :=
  existsb (String.eqb x) l.

(** [l.count(x)]. *)
Definition count (l : list string) (x : string) : nat :=
  count_occ string_dec l x.

(** [max(l, key=key)]: the running maximum changes only for a strictly
    larger key. *)
Fixpoint max_from {A : Type} (key : A -> nat) (best : A) (l : list A) : A :=
  match l with
  | [] => best
  | x :: l' => max_from key (if Nat.ltb (key best) (key x) then x else best) l'
  end.

Definition py_max {A : Type} (key : A -> nat) (l : list A) : result A :=
  match l with
  | [] => Raise ValueError
  | x :: l' => Ok (max_from key x l')
  end.

Fixpoint map_result {A B : Type} (f : A -> result B) (l : list A)
    : result (list B) :=
  match l with
  | [] => Ok []
  | x :: l' => y <- f x ;; ys <- map_result f l' ;; Ok (y :: ys)
  end.

(** [d[k]] on a [defaultdict(list)] and on a [defaultdict(int)]. *)
Definition dd_list (d : gmap string (list string)) (k : string) : list string :=
  default [] (d !! k).

Definition dd_int (d : gmap string nat) (k : string) : nat :=
  default 0 (d !! k).

(** ** The program *)

Section Program.
Context `{PyRuntime}.

Definition int_ (s : string) : result Z := or_ValueError (py_int s).

Definition float_ (s : string) : result unit :=
  or_ValueError (if py_float s then Some tt else None).

Definition strptime (s fmt : string) : result unit :=
  or_ValueError (if py_strptime s fmt then Some tt else None).

Definition dt_formats : list (string * string) :=
  [ ("%Y-%m-%d %H:%M:%S", "datetime");
    ("%Y-%m-%d %H:%M:%S.%f", "datetime");
    ("%Y-%m-%d", "date");
    ("%H:%M:%S", "time") ].

(** The loop of [get_type] over [dt_formats] (lines 46-52), and what
    follows it. *)
Fixpoint try_formats (s : string) (fmts : list (string * string))
    (after : result string) : result string :=
  match fmts with
  | [] => after
  | (dt_format, dt_type) :: fmts' =>
      try_except_ValueError (strptime s dt_format)
        (try_formats s fmts' after)
        (fun _ => Ok dt_type)
  end.

(** [get_type], lines 18-58. *)
Definition get_type (s : string) : result string :=
  try_except_ValueError (int_ s)
    (try_except_ValueError (float_ s)
       (try_formats s dt_formats
          (if Nat.ltb 255 (String.length s)
           then Ok "text" else Ok "varchar(255)"))
       (fun _ => Ok "double"))
    (fun v =>
       if (Z.abs v >? 2147483647)%Z then Ok "bigint" else Ok "int").

Definition most_common_default : string := "varchar(255)".

Fixpoint first_in (dt_types : list string) (l : list string)
    : option string :=
  match dt_types with
  | [] => None
  | dt_type :: rest => if elem dt_type l then Some dt_type else first_in rest l
  end.

(** [most_common], lines 61-70. *)
Definition most_common (l : list string) (default : string) : result string :=
  match l with
  | [] => Ok default
  | _ :: _ =>
      match first_in ["text"; "bigint"] l with
      | Some dt_type => Ok dt_type
      | None => py_max (count l) l
      end
  end.

(** The inner loop of [get_col_types] over the cells of one row (lines
    83-85). *)
Fixpoint classify_cells (header : list string) (col_i : nat)
    (row : list string) (csv_types : gmap string (list string))
    : result (gmap string (list string)) :=
  match row with
  | [] => Ok csv_types
  | s :: row' =>
      data_type <- get_type s ;;
      col <- index header col_i ;;
      classify_cells header (S col_i) row'
        (<[col := dd_list csv_types col ++ [data_type]]> csv_types)
  end.

(** The outer loop of [get_col_types], from row [row_i] on (lines 79-88):
    the first row is the header, the others are classified, and the loop
    is left after the row at position [max_rows]. *)
Fixpoint sample_rows (max_rows : Z) (row_i : nat) (rows : list (list string))
    (header : option (list string)) (csv_types : gmap string (list string))
    : result (option (list string) * gmap string (list string)) :=
  match rows with
  | [] => Ok (header, csv_types)
  | row :: rows' =>
      st <- (if Nat.eqb row_i 0 then Ok (Some row, csv_types)
             else (h <- local header ;;
                   t <- classify_cells h 0 row csv_types ;;
                   Ok (header, t))) ;;
      if (Z.of_nat row_i =? max_rows)%Z then Ok st
      else sample_rows max_rows (S row_i) rows' (fst st) (snd st)
  end.

(** [get_col_types], lines 73-91. *)
Definition get_col_types (input_file : list (list string)) (max_rows : Z)
    : result (list string) :=
  st <- sample_rows max_rows 0 input_file None ∅ ;;
  header <- local (fst st) ;;
  map_result (fun col => most_common (dd_list (snd st) col) most_common_default)
             header.

Definition get_col_types_max_rows : Z := 1000.

(** The loop of [get_schema] over [zip(header, col_types)] (lines
    103-105). *)
Fixpoint schema_columns (cols : list (string * string)) (schema_sql : string)
    : string :=
  match cols with
  | [] => schema_sql
  | (col_name, col_type) :: cols' =>
      schema_columns cols'
        (if String.eqb col_name "id" then schema_sql
         else schema_sql +:+ nl +:+ col_name +:+ " " +:+ col_type +:+ ",")
  end.

(** [get_schema], lines 94-109. *)
Definition get_schema (table : string) (header col_types : list string)
    : string :=
  let schema_sql :=
    "CREATE TABLE IF NOT EXISTS `" +:+ table +:+ "` (" +:+ nl +:+ nl
    +:+ "        " in
  let schema_sql := schema_columns (zip header col_types) schema_sql in
  schema_sql +:+ nl +:+ "PRIMARY KEY (id)" +:+ nl
  +:+ "        ) DEFAULT CHARSET=utf8;".

(** [get_insert], lines 112-118. *)
Definition get_insert (table : string) (header : list string) : string :=
  let field_names := join ", " header in
  let field_markers := join ", " (map (fun _ => "%s") header) in
  "INSERT INTO `" +:+ table +:+ "` (" +:+ field_names +:+ ") VALUES ("
  +:+ field_markers +:+ ");".

(** [safe_col], line 125. *)
Definition safe_col (s : string) : string :=
  strip_char "_" (re_sub_nonword "_" (py_lower s)).

(** The loop of [format_header] (lines 128-134). *)
Fixpoint format_header_loop (row : list string) (header : list string)
    (counts : gmap string nat) : list string :=
  match row with
  | [] => header
  | col :: row' =>
      let col := safe_col col in
      let counts := <[col := dd_int counts col + 1]> counts in
      let col :=
        if Nat.ltb 1 (dd_int counts col)
        then col +:+ str_of_nat (dd_int counts col) else col in
      let col := "`" +:+ col +:+ "`" in
      format_header_loop row' (header ++ [col]) counts
  end.

(** [format_header], lines 121-135. *)
Definition format_header (row : list string) : list string :=
  format_header_loop row [] ∅.

End Program.

(** ** The load loop of [main] *)

(** [while len(row) < len(header): row.append('')] (lines 154-155). The
    distance to the header's length shrinks at every turn. *)
Equations pad_row (header_len : nat) (row : list string) : list string
    by wf (header_len - length row) lt :=
  pad_row header_len row with lt_dec (length row) header_len := {
    | left _ => pad_row header_len (row ++ [""]);
    | right _ => row }.
Next Obligation. rewrite length_app; simpl; lia. Qed.

(** The locals of [main] that the loop assigns. *)
Record load_state : Type := {
  st_header : option (list string);
  st_insert_sql : option string
}.

Section LoadPipeline.
Context `{PyRuntime}.

(** The body of the loop of [main] for row [i] (lines 153-176).
    [if header:] is false for [None] and for the empty list. The messages
    printed on the way are left out. *)
Definition load_row (table : string) (col_types : list string)
    (max_inserts : Z) (st : load_state) (i : nat) (row : list string)
    : io load_state :=
  match st_header st with
  | Some ((_ :: _) as header) =>
      let row := pad_row (length header) row in
      insert_sql <~ lift (local (st_insert_sql st)) ;;
      _ <~ emit (Execute insert_sql (Some row)) ;;
      r <~ lift (py_mod (Z.of_nat i) max_inserts) ;;
      _ <~ (if (r =? 0)%Z then emit Commit else io_ret tt) ;;
      io_ret st
  | _ =>
      let header := format_header row in
      let schema_sql := get_schema table header col_types in
      _ <~ emit (Execute ("DROP TABLE IF EXISTS `" +:+ table +:+ "`;") None) ;;
      _ <~ emit (Execute schema_sql None) ;;
      _ <~ emit (Execute ("CREATE INDEX ids ON `" +:+ table +:+ "` (id);") None) ;;
      io_ret {| st_header := Some header;
                st_insert_sql := Some (get_insert table header) |}
  end.

(** The loop over [enumerate(csv.reader(...))], from row [i] on. *)
Fixpoint load_rows (table : string) (col_types : list string)
    (max_inserts : Z) (i : nat) (rows : list (list string))
    (st : load_state) : io load_state :=
  match rows with
  | [] => io_ret st
  | row :: rows' =>
      st' <~ load_row table col_types max_inserts st i row ;;
      load_rows table col_types max_inserts (S i) rows' st'
  end.

(** The second read of the file and the last commit (lines 151-180 of
    [main]). *)
Definition load (table : string) (col_types : list string)
    (max_inserts : Z) (input_file : list (list string)) : io unit :=
  _ <~ load_rows table col_types max_inserts 0 input_file
         {| st_header := None; st_insert_sql := None |} ;;
  emit Commit.

(** [main], lines 138-181. Both reads of [input_file] see the same
    records. *)
Definition main (input_file : list (list string))
    (user password host table database : string) (max_inserts : Z)
    : io unit :=
  _ <~ emit (Connect host user password) ;;
  _ <~ emit (Execute ("CREATE DATABASE IF NOT EXISTS `" +:+ database +:+ "`;")
                     None) ;;
  _ <~ emit (SelectDb database) ;;
  col_types <~ lift (get_col_types input_file get_col_types_max_rows) ;;
  load table col_types max_inserts input_file.

Definition main_max_inserts : Z := 10000.

End LoadPipeline.

(** ** Notions used to state the properties *)

(** The eight inferred types. *)
Definition inferred_types : list string :=
  ["int"; "bigint"; "double"; "datetime"; "date"; "time"; "text";
   "varchar(255)"].

(** The three statements that fix the schema, as [main] issues them once
    it has a header. *)
Definition create_table_calls (table : string) (header col_types : list string)
    : list call :=
  [ Execute ("DROP TABLE IF EXISTS `" +:+ table +:+ "`;") None;
    Execute (get_schema table header col_types) None;
    Execute ("CREATE INDEX ids ON `" +:+ table +:+ "` (id);") None ].

(** The calls for one data row: the insert of the bound row and, when the
    row's position is a multiple of [max_inserts], a commit. *)
Definition insert_calls (insert_sql : string) (max_inserts : Z) (i : nat)
    (bound : list string) : list call :=
  Execute insert_sql (Some bound)
  :: (if (Z.of_nat i mod max_inserts =? 0)%Z then [Commit] else []).

(** [enumerate(l, start)]. *)
Definition enumerate {A : Type} (start : nat) (l : list A) : list (nat * A) :=
  zip (seq start (length l)) l.

(** The statements of a trace that carry bound values, with the values. *)
Definition bound_rows (t : list call) : list (string * list string) :=
  omap (fun c => match c with
                 | Execute sql (Some args) => Some (sql, args)
                 | _ => None
                 end) t.

(** The clause of one column in the CREATE TABLE statement, and the
    clauses of a list of columns, in order. *)
Definition column_clause (col : string * string) : string :=
  nl +:+ fst col +:+ " " +:+ snd col +:+ ",".

Fixpoint column_clauses (cols : list (string * string)) : string :=
  match cols with
  | [] => ""
  | col :: cols' => column_clause col +:+ column_clauses cols'
  end.

Definition not_id (col : string * string) : bool :=
  negb (String.eqb (fst col) "id").

(** The name [format_header] makes of a sanitized name at its [n]-th
    occurrence. *)
Definition quoted_name (base : string) (n : nat) : string :=
  "`" +:+ (if Nat.ltb 1 n then base +:+ str_of_nat n else base) +:+ "`".

(** The type [get_type] returns for a cell, and the type [most_common]
    returns for a list; neither raises. *)
Definition classified `{PyRuntime} (s : string) : string :=
  match get_type s with
  | Ok t => t
  | Raise _ => ""
  end.

Definition winner (l : list string) : string :=
  match most_common l most_common_default with
  | Ok t => t
  | Raise _ => ""
  end.

(** The cells of a row that stand under a header cell equal to [name]. *)
Definition cells_named (header : list string) (name : string)
    (row : list string) : list string :=
  omap (fun hs : string * string =>
          if decide (fst hs = name) then Some (snd hs) else None)
       (zip header row).

(** The data rows that the sampling pass reads: the first [max_rows], or
    all of them under a negative bound, which no position equals. *)
Definition sample_window (max_rows : Z) (data : list (list string))
    : list (list string) :=
  if (max_rows <? 0)%Z then data else take (Z.to_nat max_rows) data.

(** The characters of a sanitized name on ASCII text: lower-case letters,
    digits and the underscore. *)
Definition name_char (c : ascii) : bool :=
  AsciiText.is_digit c || AsciiText.is_lower c || Ascii.eqb c "_".

Definition name_chars (s : string) : Prop :=
  Forall (fun c => name_char c = true) (list_ascii_of_string s).

(** A string of ASCII characters. *)
Definition ascii_text (s : string) : Prop :=
  Forall (fun c => nat_of_ascii c < 128) (list_ascii_of_string s).

(** An ASCII letter or digit. *)
Definition letter_or_digit (c : ascii) : bool :=
  AsciiText.is_digit c || AsciiText.is_upper c || AsciiText.is_lower c.

(** ** The type classifier *)

Ltac unfold_builtins :=
  unfold int_, float_, strptime, or_ValueError, try_except_ValueError.

Section Classifier.
Context `{PyRuntime}.

Lemma try_formats_cases (s : string) (fmts : list (string * string))
    (after : result string) :
  try_formats s fmts after = after
  \/ exists fmt ty, In (fmt, ty) fmts /\ py_strptime s fmt = true
                    /\ try_formats s fmts after = Ok ty.
Proof.
  induction fmts as [|[fmt ty] fmts IH]; simpl; [now left|].
  unfold_builtins.
  destruct (py_strptime s fmt) eqn:E.
  - right. exists fmt, ty. auto.
  - destruct IH as [IH | (fmt' & ty' & Hin & Hok & IH)].
    + now left.
    + right. exists fmt', ty'. auto.
Qed.

Lemma get_type_of_int (s : string) (v : Z) :
  py_int s = Some v ->
  get_type s =
    Ok (if (Z.abs v >? 2147483647)%Z then "bigint" else "int").
Proof.
  intros Hv. unfold get_type. unfold_builtins. rewrite Hv.
  now destruct (Z.abs v >? 2147483647)%Z.
Qed.

Lemma get_type_returns (s : string) :
  exists t, get_type s = Ok t /\ In t inferred_types.
Proof.
  unfold get_type. unfold_builtins.
  destruct (py_int s) as [v|].
  - destruct (Z.abs v >? 2147483647)%Z; eexists; split;
      [reflexivity | simpl; auto | reflexivity | simpl; auto].
  - destruct (py_float s).
    + eexists; split; [reflexivity | simpl; auto].
    + match goal with |- context [try_formats s dt_formats ?a] =>
        destruct (try_formats_cases s dt_formats a)
          as [-> | (fmt & ty & Hin & _ & ->)]
      end.
      * destruct (Nat.ltb 255 (String.length s)); eexists; split;
          [reflexivity | simpl; auto 10 | reflexivity | simpl; auto 10].
      * exists ty. split; [reflexivity|].
        simpl in Hin.
        destruct Hin as [E | [E | [E | [E | []]]]]; inversion E; subst;
          simpl; auto 10.
Qed.

End Classifier.

(** ** The reduction of a column's observed types *)

Section MaxFrom.
Context {A : Type} (key : A -> nat).

(** [max_from] returns the first element whose key is the largest: what
    stands before it has a smaller key, what stands after it has no
    larger one. *)
Lemma max_from_first (l : list A) :
  forall (pre : list A) (best : A) (mid : list A),
    (forall x, In x pre -> key x < key best) ->
    (forall x, In x mid -> key x <= key best) ->
    exists pre' post,
      pre ++ best :: mid ++ l = pre' ++ max_from key best l :: post
      /\ (forall x, In x pre' -> key x < key (max_from key best l))
      /\ (forall x, In x post -> key x <= key (max_from key best l)).
Proof.
  induction l as [|x l IH]; intros pre best mid Hpre Hmid; simpl.
  - exists pre, mid. rewrite app_nil_r. auto.
  - destruct (Nat.ltb (key best) (key x)) eqn:E.
    + apply Nat.ltb_lt in E.
      destruct (IH (pre ++ best :: mid) x []) as (pre' & post & Heq & H1 & H2).
      * intros y Hy. apply in_app_or in Hy.
        destruct Hy as [Hy | [<- | Hy]]; [| assumption |].
        -- specialize (Hpre y Hy). lia.
        -- specialize (Hmid y Hy). lia.
      * intros y [].
      * exists pre', post. split; [|auto].
        rewrite <- Heq. rewrite <- app_assoc. reflexivity.
    + apply Nat.ltb_ge in E.
      destruct (IH pre best (mid ++ [x])) as (pre' & post & Heq & H1 & H2).
      * assumption.
      * intros y Hy. apply in_app_or in Hy.
        destruct Hy as [Hy | [<- | []]]; auto.
      * exists pre', post. split; [|auto].
        rewrite <- Heq. rewrite <- app_assoc. reflexivity.
Qed.

Lemma py_max_first (l : list A) :
  l <> [] ->
  exists r pre post,
    py_max key l = Ok r /\ l = pre ++ r :: post
    /\ (forall x, In x pre -> key x < key r)
    /\ (forall x, In x l -> key x <= key r).
Proof.
  destruct l as [|b l]; [congruence|]. intros _.
  destruct (max_from_first l [] b []) as (pre & post & Heq & H1 & H2).
  - intros x [].
  - intros x [].
  - simpl in Heq. exists (max_from key b l), pre, post.
    split; [reflexivity|]. split; [assumption|]. split; [assumption|].
    intros x Hx. rewrite Heq in Hx. apply in_app_or in Hx.
    destruct Hx as [Hx | [<- | Hx]]; [| lia | auto].
    specialize (H1 x Hx). lia.
Qed.

End MaxFrom.

Lemma elem_In (x : string) (l : list string) : elem x l = true <-> In x l.
Proof.
  unfold elem. rewrite existsb_exists. split.
  - intros (y & Hy & E). apply String.eqb_eq in E. now subst.
  - intros Hx. exists x. split; [assumption | apply String.eqb_refl].
Qed.

Lemma elem_not_In (x : string) (l : list string) :
  elem x l = false <-> ~ In x l.
Proof.
  rewrite <- elem_In. destruct (elem x l); split; intros; congruence.
Qed.

(** C4. The reduction of a list of observed types: [text] wins when it
    occurs, else [bigint] wins when it occurs, else the most frequent
    element wins and, among the most frequent, the one met first; the empty
    list gives the default, [varchar(255)]. So [int, int, text] gives
    [text], [int, int, bigint] gives [bigint] and [int, int, double] gives
    [int]. *)
Theorem most_common_policy (l : list string) :
  most_common [] most_common_default = Ok "varchar(255)"
  /\ (In "text" l -> most_common l most_common_default = Ok "text")
  /\ (~ In "text" l -> In "bigint" l ->
      most_common l most_common_default = Ok "bigint")
  /\ (~ In "text" l -> ~ In "bigint" l -> l <> [] ->
      exists r pre post,
        most_common l most_common_default = Ok r
        /\ l = pre ++ r :: post
        /\ (forall x, In x pre -> count l x < count l r)
        /\ (forall x, In x l -> count l x <= count l r))
  /\ most_common ["int"; "int"; "text"] most_common_default = Ok "text"
  /\ most_common ["int"; "int"; "bigint"] most_common_default = Ok "bigint"
  /\ most_common ["int"; "int"; "double"] most_common_default = Ok "int".
Proof.
  split; [reflexivity|].
  split; [|split; [|split; [|repeat split; reflexivity]]].
  - intros Ht. destruct l as [|a l]; [destruct Ht|].
    unfold most_common, first_in.
    apply elem_In in Ht. now rewrite Ht.
  - intros Ht Hb. destruct l as [|a l]; [destruct Hb|].
    unfold most_common, first_in.
    apply elem_not_In in Ht. apply elem_In in Hb. now rewrite Ht, Hb.
  - intros Ht Hb Hl. destruct l as [|a l]; [congruence|].
    unfold most_common, first_in.
    apply elem_not_In in Ht. apply elem_not_In in Hb. rewrite Ht, Hb.
    apply py_max_first. discriminate.
Qed.

(** ** Properties of the type classifier *)

(** C5. A string that [int] accepts is classified by the size of the
    integer alone: [int] up to 2147483647 in absolute value, [bigint]
    beyond. The integer test comes first: whatever [float] and
    [time.strptime] make of the string, the answer is not [double] nor a
    date or text type. *)
Theorem get_type_integer `{PyRuntime} (s : string) (v : Z) :
  py_int s = Some v ->
  ((Z.abs v <= 2147483647)%Z -> get_type s = Ok "int")
  /\ ((Z.abs v > 2147483647)%Z -> get_type s = Ok "bigint")
  /\ (get_type s = Ok "int" \/ get_type s = Ok "bigint").
Proof.
  intros Hv. rewrite (get_type_of_int s v Hv).
  destruct (Z.abs v >? 2147483647)%Z eqn:E.
  - apply Z.gtb_lt in E. split; [lia | split; auto].
  - rewrite Z.gtb_ltb in E. apply Z.ltb_ge in E.
    split; [auto | split; [lia | auto]].
Qed.

(** On ASCII text: [2147483647] is an [int], [-2147483648] a [bigint], and
    [12], which [float] accepts too, is an [int]. *)
Lemma get_type_integer_witness :
  get_type "2147483647" = Ok "int"
  /\ get_type "-2147483648" = Ok "bigint"
  /\ (py_float "12" = true /\ get_type "12" = Ok "int").
Proof.
  split; [|split; [|split]].
  - apply (@get_type_integer ascii_runtime "2147483647" 2147483647);
      [reflexivity | lia].
  - apply (@get_type_integer ascii_runtime "-2147483648" (-2147483648));
      [reflexivity | lia].
  - reflexivity.
  - apply (@get_type_integer ascii_runtime "12" 12); [reflexivity | lia].
Defined.

(** C6. The classifier never raises: on every string it returns one of
    the eight inferred types. On the empty string, which none of [int],
    [float] and [time.strptime] accepts, it returns [varchar(255)]. *)
Theorem get_type_total :
  (forall (R : PyRuntime) (s : string),
      exists t, @get_type R s = Ok t /\ In t inferred_types)
  /\ @get_type ascii_runtime "" = Ok "varchar(255)".
Proof.
  split; [|reflexivity].
  intros R s. apply get_type_returns.
Qed.

(** ** Failures of the sampling pass *)

Section Sampling.
Context `{PyRuntime}.

(** A row is classified to the end when the header has a name for each
    of its cells, and stops on [IndexError] at the first cell without. *)
Lemma classify_cells_outcome (header row : list string) :
  forall (col_i : nat) (csv_types : gmap string (list string)),
    (col_i + length row <= length header ->
     exists t, classify_cells header col_i row csv_types = Ok t)
    /\ (col_i <= length header -> length header < col_i + length row ->
        classify_cells header col_i row csv_types = Raise IndexError).
Proof.
  induction row as [|s row IH]; intros col_i csv_types; simpl.
  - split; [eauto | lia].
  - destruct (get_type_returns s) as (ty & -> & _). simpl.
    unfold index. destruct (header !! col_i) as [col|] eqn:E; simpl.
    + apply lookup_lt_Some in E.
      destruct (IH (S col_i)
                  (<[col := dd_list csv_types col ++ [ty]]> csv_types))
        as [IH1 IH2].
      split; [intros Hlen; apply IH1 | intros Hc Hlen; apply IH2]; lia.
    + apply lookup_ge_None in E. split; [lia | reflexivity].
Qed.

Lemma sample_rows_long_row (max_rows : Z) (header : list string)
    (rows : list (list string)) :
  forall (row_i k : nat) (row : list string)
         (csv_types : gmap string (list string)),
    row_i <> 0 ->
    rows !! k = Some row ->
    (Z.of_nat (row_i + k) <= max_rows)%Z ->
    length header < length row ->
    sample_rows max_rows row_i rows (Some header) csv_types
    = Raise IndexError.
Proof.
  induction rows as [|r rows IH]; intros row_i k row csv_types Hi Hk Hmax Hlen;
    [discriminate|].
  simpl. destruct (Nat.eqb row_i 0) eqn:E0;
    [apply Nat.eqb_eq in E0; congruence|].
  simpl. destruct k as [|k]; simpl in Hk.
  - injection Hk as ->.
    rewrite (proj2 (classify_cells_outcome header row 0 csv_types)) by lia.
    reflexivity.
  - destruct (Nat.le_gt_cases (length r) (length header)) as [Hr | Hr].
    + destruct (proj1 (classify_cells_outcome header r 0 csv_types))
        as [t ->]; [lia|].
      simpl. destruct (Z.of_nat row_i =? max_rows)%Z eqn:Em;
        [apply Z.eqb_eq in Em; lia|].
      apply (IH (S row_i) k row t); [lia | assumption | lia | assumption].
    + rewrite (proj2 (classify_cells_outcome header r 0 csv_types)) by lia.
      reflexivity.
Qed.

(** The first turn of the loop assigns [header]. *)
Lemma sample_rows_header (max_rows : Z) (header : list string)
    (data : list (list string)) :
  sample_rows max_rows 0 (header :: data) None ∅
  = if (0 =? max_rows)%Z then Ok (Some header, ∅)
    else sample_rows max_rows 1 data (Some header) ∅.
Proof. reflexivity. Qed.

Lemma get_col_types_long_row (max_rows : Z) (header : list string)
    (data : list (list string)) (k : nat) (row : list string) :
  data !! k = Some row ->
  (Z.of_nat k < max_rows)%Z ->
  length header < length row ->
  get_col_types (header :: data) max_rows = Raise IndexError.
Proof.
  intros Hk Hmax Hlen. unfold get_col_types.
  rewrite sample_rows_header.
  destruct (0 =? max_rows)%Z eqn:E; [apply Z.eqb_eq in E; lia|].
  rewrite (sample_rows_long_row max_rows header data 1 k row ∅);
    [reflexivity | lia | assumption | lia | assumption].
Qed.

End Sampling.

(** C9. A data row in the sample window (one of the first [max_rows] rows
    after the header) with more fields than the header makes the sampling
    pass stop on [IndexError], at the header lookup of the first extra
    cell. [main], which samples the first 1000 data rows, then ends on
    that error after connecting, creating the database and selecting it,
    before any statement on the table. *)
Theorem long_sample_row_aborts `{PyRuntime} (header : list string)
    (data : list (list string)) (k : nat) (row : list string) :
  data !! k = Some row ->
  length header < length row ->
  (forall max_rows : Z,
      (Z.of_nat k < max_rows)%Z ->
      get_col_types (header :: data) max_rows = Raise IndexError)
  /\ (k < 1000 ->
      forall (user password host table database : string) (max_inserts : Z),
        main (header :: data) user password host table database max_inserts
        = ([Connect host user password;
            Execute ("CREATE DATABASE IF NOT EXISTS `" +:+ database +:+ "`;")
                    None;
            SelectDb database],
           Raise IndexError)).
Proof.
  intros Hk Hlen. split.
  - intros max_rows Hmax.
    apply (get_col_types_long_row max_rows header data k row); assumption.
  - intros Hw user password host table database max_inserts.
    unfold main, lift.
    rewrite (get_col_types_long_row get_col_types_max_rows header data k row);
      [reflexivity | assumption | unfold get_col_types_max_rows; lia
       | assumption].
Qed.

(** A three-field row under a two-field header. *)
Lemma long_sample_row_aborts_witness :
  get_col_types [["a"; "b"]; ["1"; "2"]; ["3"; "4"; "5"]] 1000
  = Raise IndexError.
Proof.
  apply (@long_sample_row_aborts ascii_runtime ["a"; "b"]
           [["1"; "2"]; ["3"; "4"; "5"]] 1 ["3"; "4"; "5"]);
    [reflexivity | simpl; lia | lia].
Defined.

(** C10. On a file with no record at all the sampling pass ends on
    [UnboundLocalError]: its loop never assigns [header], which the final
    comprehension reads. [main] then ends on that error after connecting,
    creating the database and selecting it, before any statement on the
    table. *)
Theorem empty_file_aborts `{PyRuntime} (max_rows : Z)
    (user password host table database : string) (max_inserts : Z) :
  get_col_types [] max_rows = Raise UnboundLocalError
  /\ main [] user password host table database max_inserts
     = ([Connect host user password;
         Execute ("CREATE DATABASE IF NOT EXISTS `" +:+ database +:+ "`;")
                 None;
         SelectDb database],
        Raise UnboundLocalError).
Proof. split; reflexivity. Qed.

(** ** The load loop *)

(** The padding loop appends exactly the missing number of empty fields. *)
Lemma pad_row_replicate (header_len : nat) (row : list string) :
  pad_row header_len row = row ++ replicate (header_len - length row) "".
Proof.
  funelim (pad_row header_len row).
  - rewrite H. rewrite length_app. simpl length.
    replace (header_len - length row) with (S (header_len - (length row + 1)))
      by lia.
    simpl. now rewrite <- app_assoc.
  - replace (header_len - length row) with 0 by lia.
    simpl. now rewrite app_nil_r.
Qed.

Lemma io_bind_ret_r {A : Type} (m : io A) : io_bind m io_ret = m.
Proof.
  destruct m as [t [a|e]]; simpl; [|reflexivity].
  now rewrite app_nil_r.
Qed.

Section LoadLoop.
Context `{PyRuntime}.

Lemma format_header_loop_app (row : list string) :
  forall (header : list string) (counts : gmap string nat),
    format_header_loop row header counts
    = header ++ format_header_loop row [] counts.
Proof.
  induction row as [|col row IH]; intros header counts; simpl.
  - now rewrite app_nil_r.
  - rewrite IH. rewrite (IH [_]). now rewrite <- app_assoc.
Qed.

Lemma format_header_loop_length (row : list string) :
  forall (header : list string) (counts : gmap string nat),
    length (format_header_loop row header counts)
    = length header + length row.
Proof.
  induction row as [|col row IH]; intros header counts; simpl; [lia|].
  rewrite IH, length_app. simpl. lia.
Qed.

Lemma format_header_length (row : list string) :
  length (format_header row) = length row.
Proof. unfold format_header. now rewrite format_header_loop_length. Qed.

Variables (table : string) (col_types : list string) (max_inserts : Z).

(** A turn of the loop while no header is fixed. *)
Lemma load_row_no_header (st : load_state) (i : nat) (row : list string) :
  st_header st = None \/ st_header st = Some [] ->
  load_row table col_types max_inserts st i row
  = (create_table_calls table (format_header row) col_types,
     Ok {| st_header := Some (format_header row);
           st_insert_sql := Some (get_insert table (format_header row)) |}).
Proof.
  intros [E | E]; unfold load_row; rewrite E; reflexivity.
Qed.

(** A turn of the loop once the header is fixed. *)
Lemma load_row_header (st : load_state) (header : list string)
    (insert_sql : string) (i : nat) (row : list string) :
  st_header st = Some header -> header <> [] ->
  st_insert_sql st = Some insert_sql ->
  max_inserts <> 0%Z ->
  load_row table col_types max_inserts st i row
  = (insert_calls insert_sql max_inserts i (pad_row (length header) row),
     Ok st).
Proof.
  intros Eh Hne Ei Hm. unfold load_row. rewrite Eh, Ei.
  destruct header as [|h header]; [congruence|].
  unfold py_mod. destruct (max_inserts =? 0)%Z eqn:E0;
    [apply Z.eqb_eq in E0; congruence|].
  unfold insert_calls, lift, emit, io_bind, io_ret, local.
  destruct (Z.of_nat i mod max_inserts =? 0)%Z; reflexivity.
Qed.

Lemma load_rows_header (st : load_state) (header : list string)
    (insert_sql : string) (rows : list (list string)) :
  st_header st = Some header -> header <> [] ->
  st_insert_sql st = Some insert_sql ->
  max_inserts <> 0%Z ->
  forall i : nat,
    load_rows table col_types max_inserts i rows st
    = (flat_map (fun '(j, row) =>
                   insert_calls insert_sql max_inserts j
                                (pad_row (length header) row))
                (enumerate i rows),
       Ok st).
Proof.
  intros Eh Hne Ei Hm.
  induction rows as [|row rows IH]; intros i; [reflexivity|].
  simpl load_rows.
  rewrite (load_row_header st header insert_sql i row Eh Hne Ei Hm).
  unfold io_bind. rewrite IH. reflexivity.
Qed.

Lemma load_rows_blank (blanks : list (list string)) :
  Forall (fun r => r = []) blanks ->
  forall (st : load_state) (i : nat),
    st_header st = None \/ st_header st = Some [] ->
    exists st',
      load_rows table col_types max_inserts i blanks st
      = (flat_map (fun r => create_table_calls table (format_header r)
                                               col_types) blanks,
         Ok st')
      /\ (st_header st' = None \/ st_header st' = Some []).
Proof.
  induction 1 as [|r blanks -> _ IH]; intros st i Hst.
  - exists st. split; [reflexivity | assumption].
  - simpl load_rows. rewrite (load_row_no_header st i [] Hst).
    destruct (IH {| st_header := Some (format_header []);
                    st_insert_sql :=
                      Some (get_insert table (format_header [])) |} (S i))
      as (st' & E & Hst'); [right; reflexivity|].
    exists st'. split; [|exact Hst'].
    unfold io_bind. rewrite E. reflexivity.
Qed.

Lemma load_rows_app (rows1 rows2 : list (list string)) :
  forall (st : load_state) (i : nat),
    load_rows table col_types max_inserts i (rows1 ++ rows2) st
    = (st' <~ load_rows table col_types max_inserts i rows1 st ;;
       load_rows table col_types max_inserts (i + length rows1) rows2 st').
Proof.
  induction rows1 as [|r rows1 IH]; intros st i; simpl.
  - rewrite Nat.add_0_r.
    destruct (load_rows _ _ _ i rows2 st) as [t r]. reflexivity.
  - destruct (load_row table col_types max_inserts st i r) as [t [st1|e]];
      simpl; [|reflexivity].
    rewrite IH. replace (S i + length rows1) with (i + S (length rows1)) by lia.
    destruct (load_rows _ _ _ (S i) rows1 st1) as [t1 [st2|e]]; simpl.
    + destruct (load_rows _ _ _ _ rows2 st2) as [t2 r2].
      now rewrite app_assoc.
    + reflexivity.
Qed.

(** The whole trace of the load: the schema statements for every row
    read before a header is fixed (a record without fields does not fix
    one), then the calls of each data row in order, then one commit. *)
Lemma load_trace (blanks : list (list string)) (hrow : list string)
    (data : list (list string)) :
  Forall (fun r => r = []) blanks -> hrow <> [] ->
  max_inserts <> 0%Z ->
  load table col_types max_inserts (blanks ++ hrow :: data)
  = (flat_map (fun r => create_table_calls table (format_header r) col_types)
              (blanks ++ [hrow])
     ++ flat_map (fun '(i, row) =>
                    insert_calls (get_insert table (format_header hrow))
                                 max_inserts i
                                 (pad_row (length (format_header hrow)) row))
                 (enumerate (S (length blanks)) data)
     ++ [Commit],
     Ok tt).
Proof.
  intros Hb Hh Hm. unfold load.
  rewrite load_rows_app.
  destruct (load_rows_blank blanks Hb
              {| st_header := None; st_insert_sql := None |} 0)
    as (st & -> & Hst); [now left|].
  simpl io_bind. simpl load_rows.
  rewrite (load_row_no_header st (length blanks) hrow Hst).
  simpl io_bind.
  rewrite (load_rows_header _ (format_header hrow)
             (get_insert table (format_header hrow)) data);
    [| reflexivity | | reflexivity | assumption].
  - unfold io_bind, emit. f_equal.
    rewrite flat_map_app. simpl flat_map.
    unfold create_table_calls. rewrite <- !app_assoc. reflexivity.
  - intros E. apply (f_equal length) in E.
    rewrite format_header_length in E. destruct hrow; [congruence|].
    discriminate.
Qed.

End LoadLoop.

(** *** What the trace of a load contains *)

Lemma bound_rows_app (t1 t2 : list call) :
  bound_rows (t1 ++ t2) = bound_rows t1 ++ bound_rows t2.
Proof. apply omap_app. Qed.

Lemma enumerate_cons {A : Type} (i : nat) (x : A) (l : list A) :
  enumerate i (x :: l) = (i, x) :: enumerate (S i) l.
Proof. reflexivity. Qed.

Lemma bound_rows_create_table `{PyRuntime} (table : string)
    (col_types : list string) (rows : list (list string)) :
  bound_rows
    (flat_map (fun r => create_table_calls table (format_header r) col_types)
              rows) = [].
Proof.
  induction rows as [|r rows IH]; [reflexivity|].
  change (bound_rows
            (create_table_calls table (format_header r) col_types
             ++ flat_map (fun r => create_table_calls table (format_header r)
                                                      col_types) rows) = []).
  rewrite bound_rows_app, IH. reflexivity.
Qed.

Lemma bound_rows_inserts (insert_sql : string) (max_inserts : Z)
    (bound : list string -> list string) (data : list (list string)) :
  forall i : nat,
    bound_rows
      (flat_map (fun '(j, row) => insert_calls insert_sql max_inserts j (bound row))
                (enumerate i data))
    = map (fun row => (insert_sql, bound row)) data.
Proof.
  induction data as [|row data IH]; intros i; [reflexivity|].
  rewrite enumerate_cons. simpl map. rewrite <- (IH (S i)).
  unfold insert_calls at 1. simpl flat_map.
  destruct (Z.of_nat i mod max_inserts =? 0)%Z; reflexivity.
Qed.

(** Every file either has no record with a field, or splits into leading
    records without fields, a first record with fields, and the rest. *)
Lemma rows_split (rows : list (list string)) :
  Forall (fun r => r = []) rows
  \/ exists blanks hrow data,
       rows = blanks ++ hrow :: data
       /\ Forall (fun r => r = []) blanks /\ hrow <> [].
Proof.
  induction rows as [|r rows [IH | (blanks & hrow & data & -> & Hb & Hh)]].
  - left. constructor.
  - destruct r as [|c r].
    + left. now constructor.
    + right. exists [], (c :: r), rows. repeat split; [constructor | discriminate].
  - destruct r as [|c r].
    + right. exists ([] :: blanks), hrow, data.
      repeat split; [now constructor | assumption].
    + right. exists [], (c :: r), (blanks ++ hrow :: data).
      repeat split; [constructor | discriminate].
Qed.

Lemma load_blank `{PyRuntime} (table : string) (col_types : list string)
    (max_inserts : Z) (rows : list (list string)) :
  Forall (fun r => r = []) rows ->
  load table col_types max_inserts rows
  = (flat_map (fun r => create_table_calls table (format_header r) col_types)
              rows ++ [Commit],
     Ok tt).
Proof.
  intros Hb. unfold load.
  destruct (load_rows_blank table col_types max_inserts rows Hb
              {| st_header := None; st_insert_sql := None |} 0)
    as (st & -> & _); [now left|].
  reflexivity.
Qed.

(** [main] makes the calls of the load once the sampling pass has returned
    the column types. *)
Lemma main_runs_load `{PyRuntime} (input_file : list (list string))
    (user password host table database : string) (max_inserts : Z)
    (col_types : list string) :
  get_col_types input_file get_col_types_max_rows = Ok col_types ->
  main input_file user password host table database max_inserts
  = ([Connect host user password;
      Execute ("CREATE DATABASE IF NOT EXISTS `" +:+ database +:+ "`;") None;
      SelectDb database]
     ++ fst (load table col_types max_inserts input_file),
     snd (load table col_types max_inserts input_file)).
Proof.
  intros Ht. unfold main. rewrite Ht.
  unfold io_bind, emit, lift. cbv beta iota.
  destruct (load table col_types max_inserts input_file) as [t r].
  reflexivity.
Qed.

(** C7. Once the header is fixed, every further row is bound to the
    INSERT statement in order, one statement per row: a row with fewer
    fields than the header is bound with empty strings appended up to the
    header's length, a row with at least as many fields is bound as it is,
    and the fields keep their positions. *)
Theorem load_binds_padded_rows `{PyRuntime} (table : string)
    (col_types : list string) (max_inserts : Z)
    (blanks : list (list string)) (hrow : list string)
    (data : list (list string)) :
  Forall (fun r => r = []) blanks -> hrow <> [] -> max_inserts <> 0%Z ->
  let header := format_header hrow in
  let bound := fun row : list string =>
                 row ++ replicate (length header - length row) "" in
  length header = length hrow
  /\ bound_rows (fst (load table col_types max_inserts (blanks ++ hrow :: data)))
     = map (fun row => (get_insert table header, bound row)) data
  /\ (forall row : list string,
         pad_row (length header) row = bound row
         /\ (length row < length header -> length (bound row) = length header)
         /\ (length header <= length row -> bound row = row)
         /\ (forall j, j < length row -> bound row !! j = row !! j)
         /\ (forall j, length row <= j < length header ->
                       bound row !! j = Some "")).
Proof.
  intros Hb Hh Hm header bound.
  split; [apply format_header_length|]. split.
  - rewrite (load_trace table col_types max_inserts blanks hrow data Hb Hh Hm).
    simpl fst. rewrite !bound_rows_app, bound_rows_create_table.
    rewrite bound_rows_inserts. simpl. rewrite app_nil_r.
    apply map_ext. intros row. now rewrite pad_row_replicate.
  - intros row. unfold bound.
    split; [apply pad_row_replicate|].
    split; [|split; [|split]].
    + intros Hlt. rewrite length_app, length_replicate. lia.
    + intros Hge. replace (length header - length row) with 0 by lia.
      simpl. apply app_nil_r.
    + intros j Hj. now apply lookup_app_l.
    + intros j Hj. rewrite lookup_app_r by lia.
      apply lookup_replicate_2. lia.
Qed.

(** A short row, a full row and a long row under a two-column header. *)
Lemma load_binds_padded_rows_witness :
  bound_rows
    (fst (load "t" ["int"; "varchar(255)"] 10000
            [["id"; "name"]; ["1"]; ["2"; "Bob"]; ["3"; "Eve"; "x"]]))
  = [ ("INSERT INTO `t` (`id`, `name`) VALUES (%s, %s);", ["1"; ""]);
      ("INSERT INTO `t` (`id`, `name`) VALUES (%s, %s);", ["2"; "Bob"]);
      ("INSERT INTO `t` (`id`, `name`) VALUES (%s, %s);", ["3"; "Eve"; "x"]) ].
Proof.
  apply (@load_binds_padded_rows ascii_runtime "t" ["int"; "varchar(255)"]
           10000 [] ["id"; "name"] [["1"]; ["2"; "Bob"]; ["3"; "Eve"; "x"]]);
    [constructor | discriminate | lia].
Defined.

(** C8. A load always ends with one commit, made after the last row, so
    every call before it is followed by a commit. Once the header is fixed,
    the calls for the row at position [i] of the file (the first record is
    at position 0) are its insert, followed at once by a commit when
    [i mod max_inserts = 0]. *)
Theorem load_commits `{PyRuntime} (table : string) (col_types : list string)
    (max_inserts : Z) :
  max_inserts <> 0%Z ->
  (forall rows : list (list string),
      exists t,
        load table col_types max_inserts rows = (t ++ [Commit], Ok tt)
        /\ forall p c, (t ++ [Commit]) !! p = Some c -> c <> Commit ->
                       exists q, p < q /\ (t ++ [Commit]) !! q = Some Commit)
  /\ (forall (blanks : list (list string)) (hrow : list string)
             (data : list (list string)),
         Forall (fun r => r = []) blanks -> hrow <> [] ->
         fst (load table col_types max_inserts (blanks ++ hrow :: data))
         = flat_map (fun r => create_table_calls table (format_header r)
                                                 col_types)
                    (blanks ++ [hrow])
           ++ flat_map
                (fun '(i, row) =>
                   Execute (get_insert table (format_header hrow))
                           (Some (pad_row (length (format_header hrow)) row))
                   :: (if (Z.of_nat i mod max_inserts =? 0)%Z
                       then [Commit] else []))
                (enumerate (S (length blanks)) data)
           ++ [Commit]).
Proof.
  intros Hm. split.
  - intros rows.
    assert (exists t, load table col_types max_inserts rows
                      = (t ++ [Commit], Ok tt)) as [t Ht].
    { destruct (rows_split rows) as [Hb | (blanks & hrow & data & -> & Hb & Hh)].
      - eexists. apply load_blank. assumption.
      - rewrite (load_trace table col_types max_inserts blanks hrow data
                   Hb Hh Hm).
        eexists. rewrite app_assoc. reflexivity. }
    exists t. split; [assumption|].
    intros p c Hp Hc. exists (length t). split.
    + destruct (Nat.lt_ge_cases p (length t)) as [Hlt | Hge]; [assumption|].
      rewrite lookup_app_r in Hp by assumption.
      destruct (p - length t) as [|n]; simpl in Hp; [|discriminate].
      congruence.
    + rewrite lookup_app_r by lia. now rewrite Nat.sub_diag.
  - intros blanks hrow data Hb Hh.
    rewrite (load_trace table col_types max_inserts blanks hrow data Hb Hh Hm).
    reflexivity.
Qed.

(** With [max_inserts = 2]: the rows at positions 2 and 4 are followed by a
    commit, the rows at positions 1 and 3 are not, and the load ends with a
    commit. *)
Lemma load_commits_witness :
  fst (load "t" ["int"] 2 [["n"]; ["1"]; ["2"]; ["3"]; ["4"]])
  = [ Execute "DROP TABLE IF EXISTS `t`;" None;
      Execute (get_schema "t" ["`n`"] ["int"]) None;
      Execute "CREATE INDEX ids ON `t` (id);" None;
      Execute "INSERT INTO `t` (`n`) VALUES (%s);" (Some ["1"]);
      Execute "INSERT INTO `t` (`n`) VALUES (%s);" (Some ["2"]);
      Commit;
      Execute "INSERT INTO `t` (`n`) VALUES (%s);" (Some ["3"]);
      Execute "INSERT INTO `t` (`n`) VALUES (%s);" (Some ["4"]);
      Commit;
      Commit ].
Proof.
  refine (eq_trans
            (proj2 (@load_commits ascii_runtime "t" ["int"] 2 _)
                   [] ["n"] [["1"]; ["2"]; ["3"]; ["4"]] _ _) _);
    [lia | constructor | discriminate | reflexivity].
Defined.

(** ** The schema generator and the header normalizer *)

Lemma append_assoc (a b c : string) : (a +:+ b) +:+ c = a +:+ b +:+ c.
Proof.
  induction a as [|x a IH]; [reflexivity|].
  change (String x ((a +:+ b) +:+ c) = String x (a +:+ b +:+ c)).
  now f_equal.
Qed.

Lemma append_nil_r (a : string) : a +:+ "" = a.
Proof.
  induction a as [|x a IH]; [reflexivity|].
  change (String x (a +:+ "") = String x a). now f_equal.
Qed.

(** The loop of [get_schema] appends the clause of every column whose name
    is not [id]. *)
Lemma schema_columns_clauses (cols : list (string * string)) :
  forall schema_sql : string,
    schema_columns cols schema_sql
    = schema_sql +:+ column_clauses (List.filter not_id cols).
Proof.
  induction cols as [|[col_name col_type] cols IH]; intros schema_sql; simpl.
  - now rewrite append_nil_r.
  - rewrite IH. unfold not_id at 2. simpl fst.
    destruct (String.eqb col_name "id"); simpl; [reflexivity|].
    unfold column_clause. simpl fst. simpl snd.
    now rewrite !append_assoc.
Qed.

Lemma get_schema_clauses (table : string) (header col_types : list string) :
  get_schema table header col_types
  = "CREATE TABLE IF NOT EXISTS `" +:+ table +:+ "` (" +:+ nl +:+ nl
    +:+ "        "
    +:+ column_clauses (List.filter not_id (zip header col_types))
    +:+ nl +:+ "PRIMARY KEY (id)" +:+ nl
    +:+ "        ) DEFAULT CHARSET=utf8;".
Proof.
  unfold get_schema. rewrite schema_columns_clauses.
  now rewrite !append_assoc.
Qed.

Lemma filter_not_id_all (header col_types : list string) :
  Forall (fun name => name <> "id") header ->
  List.filter not_id (zip header col_types) = zip header col_types.
Proof.
  intros Hh. revert col_types.
  induction Hh as [|name header Hn _ IH]; intros [|ty col_types];
    try reflexivity.
  simpl. unfold not_id at 1. simpl fst.
  apply String.eqb_neq in Hn. rewrite Hn. simpl. now rewrite IH.
Qed.

Section Header.
Context `{PyRuntime}.

(** Every name that [format_header] returns is quoted, so none is [id]. *)
Lemma format_header_loop_quoted (row : list string) :
  forall (header : list string) (counts : gmap string nat),
    Forall (fun name => name <> "id") header ->
    Forall (fun name => name <> "id")
           (format_header_loop row header counts).
Proof.
  induction row as [|col row IH]; intros header counts Hh; simpl;
    [assumption|].
  apply IH. apply Forall_app. split; [assumption|].
  constructor; [|constructor]. discriminate.
Qed.

Lemma format_header_not_id (row : list string) :
  Forall (fun name => name <> "id") (format_header row).
Proof. apply format_header_loop_quoted. constructor. Qed.

Lemma dd_int_insert (counts : gmap string nat) (k k' : string) (n : nat) :
  dd_int (<[k := n]> counts) k'
  = if decide (k = k') then n else dd_int counts k'.
Proof.
  unfold dd_int. rewrite lookup_insert. now destruct (decide (k = k')).
Qed.

(** The loop keeps, for each sanitized name, the number of times it has
    been met; the name at position [j] is quoted with that number. *)
Lemma format_header_loop_lookup (row : list string) :
  forall (seen : list string) (counts : gmap string nat),
    (forall c, dd_int counts c = count (map safe_col seen) c) ->
    forall (j : nat) (col : string),
      row !! j = Some col ->
      format_header_loop row [] counts !! j
      = Some (quoted_name (safe_col col)
                (count (map safe_col (seen ++ take (S j) row))
                       (safe_col col))).
Proof.
  induction row as [|col0 row IH]; intros seen counts Hc j col Hj;
    [discriminate|].
  simpl format_header_loop. rewrite format_header_loop_app.
  assert (Hc' : forall c,
             dd_int (<[safe_col col0 := dd_int counts (safe_col col0) + 1]>
                       counts) c
             = count (map safe_col (seen ++ [col0])) c).
  { intros c. rewrite dd_int_insert, map_app. unfold count.
    rewrite count_occ_app. simpl.
    destruct (decide (safe_col col0 = c)) as [->|Hne].
    - destruct (string_dec c c); [|congruence]. rewrite Hc. reflexivity.
    - destruct (string_dec (safe_col col0) c); [congruence|].
      rewrite Hc. unfold count. lia. }
  destruct j as [|j]; simpl in Hj.
  - injection Hj as ->. simpl. rewrite take_0. f_equal. rewrite Hc'.
    reflexivity.
  - simpl lookup. rewrite (IH (seen ++ [col0]) _ Hc' j col Hj).
    rewrite <- app_assoc. reflexivity.
Qed.

Lemma format_header_lookup (row : list string) (j : nat) (col : string) :
  row !! j = Some col ->
  format_header row !! j
  = Some (quoted_name (safe_col col)
            (count (map safe_col (take (S j) row)) (safe_col col))).
Proof.
  intros Hj. unfold format_header.
  rewrite (format_header_loop_lookup row [] ∅) with (j := j) (col := col);
    [reflexivity | | assumption].
  intros c. unfold dd_int. now rewrite lookup_empty.
Qed.

End Header.

(** C1. [get_schema] writes, in header order, the clause of every column
    whose name is not the three characters [id], then the primary key on
    [id]. The names it receives from [format_header] are all quoted, so the
    test never holds and every column of the file gets its clause; for the
    header [id,name] with types [int] and [varchar(255)] the statement
    holds the two clauses of [`id`] and [`name`]. *)
Theorem get_schema_keeps_quoted_id :
  (forall (table : string) (header col_types : list string),
      get_schema table header col_types
      = "CREATE TABLE IF NOT EXISTS `" +:+ table +:+ "` (" +:+ nl +:+ nl
        +:+ "        "
        +:+ column_clauses (List.filter not_id (zip header col_types))
        +:+ nl +:+ "PRIMARY KEY (id)" +:+ nl
        +:+ "        ) DEFAULT CHARSET=utf8;")
  /\ (forall (R : PyRuntime) (row col_types : list string),
         List.filter not_id (zip (@format_header R row) col_types)
         = zip (@format_header R row) col_types)
  /\ get_schema "t" (@format_header ascii_runtime ["id"; "name"])
                ["int"; "varchar(255)"]
     = "CREATE TABLE IF NOT EXISTS `t` (" +:+ nl +:+ nl +:+ "        "
       +:+ nl +:+ "`id` int,"
       +:+ nl +:+ "`name` varchar(255),"
       +:+ nl +:+ "PRIMARY KEY (id)" +:+ nl
       +:+ "        ) DEFAULT CHARSET=utf8;".
Proof.
  split; [exact get_schema_clauses|]. split; [|reflexivity].
  intros R row col_types. apply filter_not_id_all, format_header_not_id.
Qed.

(** C2. [format_header] returns as many names as it is given, in order:
    each is the sanitized name, followed from its second occurrence on by
    the number of occurrences so far, between quotes. The names need not
    be distinct: in [a, a, a2] the second [a] becomes [a2], which is also
    the name of the third column. *)
Theorem format_header_collision :
  (forall (R : PyRuntime) (row : list string),
      length (@format_header R row) = length row)
  /\ (forall (R : PyRuntime) (row : list string) (j : nat) (col : string),
         row !! j = Some col ->
         @format_header R row !! j
         = Some (quoted_name (safe_col col)
                   (count (map safe_col (take (S j) row)) (safe_col col))))
  /\ @format_header ascii_runtime ["a"; "a"; "a2"] = ["`a`"; "`a2`"; "`a2`"]
  /\ ~ NoDup (@format_header ascii_runtime ["a"; "a"; "a2"])
  /\ @format_header ascii_runtime [""; ""; "Id"] = ["``"; "`2`"; "`id`"]
  /\ @format_header ascii_runtime ["Total $"; "Total $"]
     = ["`total`"; "`total2`"].
Proof.
  split; [intros R row; apply format_header_length|].
  split; [intros R row j col; apply format_header_lookup|].
  split; [reflexivity|]. split; [|split; reflexivity].
  change (~ NoDup ["`a`"; "`a2`"; "`a2`"]).
  intros Hnd. apply NoDup_cons in Hnd as [_ Hnd].
  apply NoDup_cons in Hnd as [Hin _]. apply Hin. constructor.
Qed.

(** ** The column type aggregator *)

Lemma cells_named_cons (h : string) (header : list string) (name s : string)
    (row : list string) :
  cells_named (h :: header) name (s :: row)
  = (if decide (h = name) then [s] else []) ++ cells_named header name row.
Proof.
  unfold cells_named. simpl. now destruct (decide (h = name)).
Qed.

Lemma cells_named_nil_r (header : list string) (name : string) :
  cells_named header name [] = [].
Proof. unfold cells_named. now rewrite zip_with_nil_r. Qed.

Lemma dd_list_insert (d : gmap string (list string)) (k k' : string)
    (l : list string) :
  dd_list (<[k := l]> d) k' = if decide (k = k') then l else dd_list d k'.
Proof.
  unfold dd_list. rewrite lookup_insert. now destruct (decide (k = k')).
Qed.

Lemma most_common_winner (l : list string) :
  most_common l most_common_default = Ok (winner l).
Proof.
  unfold winner. destruct l as [|a l]; [reflexivity|].
  unfold most_common. destruct (first_in _ _); reflexivity.
Qed.

Lemma map_result_total {A B : Type} (f : A -> result B) (g : A -> B)
    (l : list A) :
  (forall x, f x = Ok (g x)) -> map_result f l = Ok (map g l).
Proof.
  intros Hf. induction l as [|x l IH]; [reflexivity|].
  simpl. now rewrite Hf, IH.
Qed.

Section Aggregator.
Context `{PyRuntime}.

Lemma get_type_classified (s : string) : get_type s = Ok (classified s).
Proof.
  unfold classified. now destruct (get_type_returns s) as (t & -> & _).
Qed.

(** The cells of a row that fits under the header go, classified, to the
    lists of the names they stand under. *)
Lemma classify_cells_lists (header row : list string) :
  forall (col_i : nat) (csv_types : gmap string (list string)),
    col_i + length row <= length header ->
    exists t,
      classify_cells header col_i row csv_types = Ok t
      /\ forall name,
           dd_list t name
           = dd_list csv_types name
             ++ map classified (cells_named (drop col_i header) name row).
Proof.
  induction row as [|s row IH]; intros col_i csv_types Hlen.
  - exists csv_types. split; [reflexivity|]. intros name.
    now rewrite cells_named_nil_r, app_nil_r.
  - simpl in Hlen. simpl classify_cells. rewrite get_type_classified.
    simpl rbind. unfold index.
    destruct (header !! col_i) as [col|] eqn:E;
      [|apply lookup_ge_None in E; lia].
    simpl rbind.
    destruct (IH (S col_i)
                (<[col := dd_list csv_types col ++ [classified s]]> csv_types))
      as (t & Ht & Hlists); [lia|].
    exists t. split; [exact Ht|]. intros name.
    rewrite Hlists, dd_list_insert, (drop_S header col col_i E),
      cells_named_cons, map_app.
    destruct (decide (col = name)) as [->|Hne]; simpl.
    + now rewrite <- app_assoc.
    + reflexivity.
Qed.

(** The loop over the data rows, from a position inside the window. *)
Lemma sample_rows_lists (max_rows : Z) (header : list string)
    (data : list (list string)) :
  forall (row_i : nat) (csv_types : gmap string (list string)),
    row_i <> 0 ->
    (max_rows < 0 \/ Z.of_nat row_i <= max_rows)%Z ->
    Forall (fun row => length row <= length header)
           (sample_window (max_rows - Z.of_nat row_i + 1) data) ->
    exists t,
      sample_rows max_rows row_i data (Some header) csv_types
      = Ok (Some header, t)
      /\ forall name,
           dd_list t name
           = dd_list csv_types name
             ++ map classified
                  (flat_map (cells_named header name)
                     (sample_window (max_rows - Z.of_nat row_i + 1) data)).
Proof.
  induction data as [|row data IH]; intros row_i csv_types Hi Hw Hshort.
  - exists csv_types. split; [reflexivity|]. intros name.
    unfold sample_window. destruct (_ <? 0)%Z; [|rewrite take_nil];
      simpl; now rewrite app_nil_r.
  - simpl sample_rows.
    destruct (Nat.eqb row_i 0) eqn:E0; [apply Nat.eqb_eq in E0; lia|].
    simpl local. simpl rbind.
    assert (Hwin : sample_window (max_rows - Z.of_nat row_i + 1) (row :: data)
                   = row :: (if (Z.of_nat row_i =? max_rows)%Z then []
                             else sample_window
                                    (max_rows - Z.of_nat (S row_i) + 1) data)).
    { unfold sample_window.
      destruct (Z.of_nat row_i =? max_rows)%Z eqn:Em.
      - apply Z.eqb_eq in Em.
        destruct (max_rows - Z.of_nat row_i + 1 <? 0)%Z eqn:En;
          [apply Z.ltb_lt in En; lia|].
        replace (max_rows - Z.of_nat row_i + 1)%Z with 1%Z by lia.
        simpl. now rewrite take_0.
      - apply Z.eqb_neq in Em.
        destruct (max_rows - Z.of_nat row_i + 1 <? 0)%Z eqn:En.
        + apply Z.ltb_lt in En.
          destruct (max_rows - Z.of_nat (S row_i) + 1 <? 0)%Z eqn:En';
            [reflexivity | apply Z.ltb_ge in En'; lia].
        + apply Z.ltb_ge in En.
          destruct (max_rows - Z.of_nat (S row_i) + 1 <? 0)%Z eqn:En';
            [apply Z.ltb_lt in En'; lia|].
          replace (Z.to_nat (max_rows - Z.of_nat row_i + 1))
            with (S (Z.to_nat (max_rows - Z.of_nat (S row_i) + 1))) by lia.
          reflexivity. }
    rewrite Hwin in Hshort |- *.
    apply Forall_cons in Hshort as [Hrow Hshort].
    destruct (classify_cells_lists header row 0 csv_types)
      as (t1 & -> & Ht1); [lia|].
    simpl rbind. rewrite drop_0 in Ht1.
    destruct (Z.of_nat row_i =? max_rows)%Z eqn:Em.
    + exists t1. split; [reflexivity|]. intros name.
      simpl. now rewrite app_nil_r.
    + apply Z.eqb_neq in Em.
      destruct (IH (S row_i) t1) as (t & Ht & Hlists);
        [lia | lia | assumption |].
      exists t. split; [exact Ht|]. intros name.
      rewrite Hlists, Ht1. simpl flat_map.
      now rewrite map_app, app_assoc.
Qed.

(** What [get_col_types] returns when every sampled row fits under the
    header: for each header cell, in order, the winner among the
    classified cells of the sampled rows that stand under a header cell of
    that name. *)
Lemma get_col_types_by_name (max_rows : Z) (header : list string)
    (data : list (list string)) :
  Forall (fun row => length row <= length header)
         (sample_window max_rows data) ->
  get_col_types (header :: data) max_rows
  = Ok (map (fun name =>
               winner (map classified
                         (flat_map (cells_named header name)
                                   (sample_window max_rows data))))
            header).
Proof.
  intros Hshort. unfold get_col_types. rewrite sample_rows_header.
  destruct (0 =? max_rows)%Z eqn:E0.
  - apply Z.eqb_eq in E0. subst max_rows. simpl rbind.
    apply map_result_total. intros name.
    rewrite most_common_winner. reflexivity.
  - apply Z.eqb_neq in E0.
    destruct (sample_rows_lists max_rows header data 1 ∅)
      as (t & -> & Hlists); [lia | lia | |].
    + replace (max_rows - Z.of_nat 1 + 1)%Z with max_rows by lia.
      assumption.
    + simpl rbind. apply map_result_total. intros name.
      rewrite most_common_winner, Hlists.
      replace (max_rows - Z.of_nat 1 + 1)%Z with max_rows by lia.
      reflexivity.
Qed.

End Aggregator.

Lemma cells_named_absent (header : list string) (name : string) :
  name ∉ header -> forall row, cells_named header name row = [].
Proof.
  induction header as [|h header IH]; intros Hn row; [reflexivity|].
  destruct row as [|s row]; [apply cells_named_nil_r|].
  rewrite cells_named_cons. apply not_elem_of_cons in Hn as [Hne Hn].
  destruct (decide (h = name)); [congruence|]. simpl. now apply IH.
Qed.

(** Under a header without repeated names, the cells under a name are the
    cells of its column. *)
Lemma cells_named_distinct (header : list string) :
  NoDup header ->
  forall (j : nat) (name : string) (row : list string),
    header !! j = Some name ->
    cells_named header name row = option_list (row !! j).
Proof.
  induction 1 as [|h header Hh Hnd IH]; intros j name row Hj; [discriminate|].
  destruct row as [|s row]; [now rewrite cells_named_nil_r|].
  rewrite cells_named_cons. destruct j as [|j]; simpl in Hj |- *.
  - injection Hj as ->. destruct (decide (name = name)); [|congruence].
    now rewrite cells_named_absent.
  - destruct (decide (h = name)) as [->|Hne].
    + exfalso. apply Hh. apply list_elem_of_lookup. eauto.
    + simpl. now apply IH.
Qed.

Lemma get_col_types_distinct `{PyRuntime} (max_rows : Z)
    (header : list string) (data : list (list string)) (j : nat)
    (name : string) :
  NoDup header ->
  Forall (fun row => length row <= length header)
         (sample_window max_rows data) ->
  header !! j = Some name ->
  exists types,
    get_col_types (header :: data) max_rows = Ok types
    /\ length types = length header
    /\ types !! j
       = Some (winner (map classified
                         (flat_map (fun row => option_list (row !! j))
                                   (sample_window max_rows data)))).
Proof.
  intros Hnd Hshort Hj. eexists. split;
    [apply get_col_types_by_name; assumption|].
  split; [apply length_map|].
  rewrite list_lookup_fmap, Hj. simpl. do 3 f_equal.
  apply flat_map_ext. intros row. now apply cells_named_distinct.
Qed.

(** C3. [get_col_types] files the classified cells under the header cell's
    text, not under the column's position. When every sampled row fits
    under the header it returns one type per header cell, in order: the
    winner among the sampled cells that stand under a header cell of that
    text. Under a header without repeated names that is the winner of the
    column's own cells. Under the header [a,a] the two columns share one
    list: with the row [1,99999999999] both get [bigint], though the only
    cell of the first column is an [int]. *)
Theorem get_col_types_merges_same_name :
  (forall (R : PyRuntime) (max_rows : Z) (header : list string)
          (data : list (list string)),
      Forall (fun row => length row <= length header)
             (sample_window max_rows data) ->
      @get_col_types R (header :: data) max_rows
      = Ok (map (fun name =>
                   winner (map classified
                             (flat_map (cells_named header name)
                                       (sample_window max_rows data))))
                header))
  /\ (forall (R : PyRuntime) (max_rows : Z) (header : list string)
             (data : list (list string)) (j : nat) (name : string),
         NoDup header ->
         Forall (fun row => length row <= length header)
                (sample_window max_rows data) ->
         header !! j = Some name ->
         exists types,
           @get_col_types R (header :: data) max_rows = Ok types
           /\ length types = length header
           /\ types !! j
              = Some (winner (map classified
                                (flat_map (fun row => option_list (row !! j))
                                          (sample_window max_rows data)))))
  /\ @get_col_types ascii_runtime [["a"; "a"]; ["1"; "99999999999"]] 1000
     = Ok ["bigint"; "bigint"]
  /\ winner (map (@classified ascii_runtime)
               (flat_map (fun row : list string => option_list (row !! 0))
                         [["1"; "99999999999"]]))
     = "int".
Proof.
  split; [intros R; apply get_col_types_by_name|].
  split; [intros R; apply get_col_types_distinct|].
  split; reflexivity.
Qed.

(** ** Further properties of the type classifier *)

Section ClassifierCases.
Context `{PyRuntime}.

(** The four formats are tried in the order of [dt_formats]. *)
Lemma try_formats_dt_formats (s : string) (after : result string) :
  try_formats s dt_formats after
  = if py_strptime s "%Y-%m-%d %H:%M:%S" then Ok "datetime"
    else if py_strptime s "%Y-%m-%d %H:%M:%S.%f" then Ok "datetime"
    else if py_strptime s "%Y-%m-%d" then Ok "date"
    else if py_strptime s "%H:%M:%S" then Ok "time"
    else after.
Proof.
  unfold dt_formats, try_formats. unfold_builtins.
  repeat match goal with |- context [py_strptime s ?f] =>
    destruct (py_strptime s f) end; reflexivity.
Qed.

(** The tests of [get_type], in order. *)
Lemma get_type_unfold (s : string) :
  get_type s
  = match py_int s with
    | Some v => Ok (if (Z.abs v >? 2147483647)%Z then "bigint" else "int")
    | None =>
        if py_float s then Ok "double"
        else if py_strptime s "%Y-%m-%d %H:%M:%S" then Ok "datetime"
        else if py_strptime s "%Y-%m-%d %H:%M:%S.%f" then Ok "datetime"
        else if py_strptime s "%Y-%m-%d" then Ok "date"
        else if py_strptime s "%H:%M:%S" then Ok "time"
        else if Nat.ltb 255 (String.length s) then Ok "text"
        else Ok "varchar(255)"
    end.
Proof.
  destruct (py_int s) as [v|] eqn:Ei.
  - now apply get_type_of_int.
  - unfold get_type. rewrite try_formats_dt_formats.
    unfold_builtins. rewrite Ei.
    destruct (py_float s); reflexivity.
Qed.

End ClassifierCases.

(** X1. The numeric types are given to the strings that the numeric
    conversions accept, and to no other: [int] exactly when [int(s)] is an
    integer of absolute value at most 2147483647, [bigint] exactly when it
    is a larger one, [double] exactly when [int(s)] fails and [float(s)]
    succeeds. *)
Theorem get_type_numeric_sound `{PyRuntime} (s : string) :
  (get_type s = Ok "int"
   <-> exists v, py_int s = Some v /\ (Z.abs v <= 2147483647)%Z)
  /\ (get_type s = Ok "bigint"
      <-> exists v, py_int s = Some v /\ (Z.abs v > 2147483647)%Z)
  /\ (get_type s = Ok "double" <-> py_int s = None /\ py_float s = true).
Proof.
  rewrite get_type_unfold.
  destruct (py_int s) as [v|].
  - destruct (Z.abs v >? 2147483647)%Z eqn:E;
      [apply Z.gtb_lt in E | rewrite Z.gtb_ltb in E; apply Z.ltb_ge in E];
      (split; [|split]); split; intros Hx;
      try reflexivity; try congruence;
      try (destruct Hx as (w & Hw & Hle); injection Hw as <-; lia);
      try (exists v; split; [reflexivity | lia]);
      try (destruct Hx; congruence).
  - repeat match goal with |- context [if ?b then _ else _] =>
      destruct b end;
      (split; [|split]); split; intros Hx;
      try reflexivity; try congruence;
      try (destruct Hx as (w & Hw & Hle); congruence);
      try (destruct Hx; congruence);
      try (split; reflexivity).
Qed.

(** X2. A cell is classified [varchar(255)] only if it has at most 255
    characters and [text] only if it has more; these two are the types of
    exactly the strings that [int], [float] and the four date and time
    formats all refuse. *)
Theorem get_type_fallback_sound `{PyRuntime} (s : string) :
  (get_type s = Ok "varchar(255)" -> String.length s <= 255)
  /\ (get_type s = Ok "text" -> 255 < String.length s)
  /\ (get_type s = Ok "varchar(255)" \/ get_type s = Ok "text"
      <-> py_int s = None /\ py_float s = false
          /\ forall fmt ty, In (fmt, ty) dt_formats ->
                            py_strptime s fmt = false).
Proof.
  rewrite get_type_unfold.
  destruct (py_int s) as [v|].
  { destruct (Z.abs v >? 2147483647)%Z;
      (split; [|split; [|split]]); try congruence;
      try (intros [? | ?]; congruence); intros (? & _); congruence. }
  destruct (py_float s).
  { (split; [|split; [|split]]); try congruence;
      try (intros [? | ?]; congruence); intros (_ & ? & _); congruence. }
  destruct (py_strptime s "%Y-%m-%d %H:%M:%S") eqn:E1.
  { (split; [|split; [|split]]); try congruence;
      try (intros [? | ?]; congruence).
    intros (_ & _ & Hd). rewrite (Hd _ "datetime") in E1;
      [congruence | simpl; auto]. }
  destruct (py_strptime s "%Y-%m-%d %H:%M:%S.%f") eqn:E2.
  { (split; [|split; [|split]]); try congruence;
      try (intros [? | ?]; congruence).
    intros (_ & _ & Hd). rewrite (Hd _ "datetime") in E2;
      [congruence | simpl; auto]. }
  destruct (py_strptime s "%Y-%m-%d") eqn:E3.
  { (split; [|split; [|split]]); try congruence;
      try (intros [? | ?]; congruence).
    intros (_ & _ & Hd). rewrite (Hd _ "date") in E3;
      [congruence | simpl; auto]. }
  destruct (py_strptime s "%H:%M:%S") eqn:E4.
  { (split; [|split; [|split]]); try congruence;
      try (intros [? | ?]; congruence).
    intros (_ & _ & Hd). rewrite (Hd _ "time") in E4;
      [congruence | simpl; auto 10]. }
  assert (Hd : forall fmt ty, In (fmt, ty) dt_formats ->
                              py_strptime s fmt = false).
  { intros fmt ty Hin. simpl in Hin.
    destruct Hin as [E | [E | [E | [E | []]]]]; injection E as <- <-;
      assumption. }
  destruct (Nat.ltb 255 (String.length s)) eqn:El;
    [apply Nat.ltb_lt in El | apply Nat.ltb_ge in El];
    (split; [|split; [|split]]); try congruence; try (intros _; lia); auto.
Qed.

(** X3. The date and time types follow the first of the four formats that
    [time.strptime] accepts, once [int] and [float] have refused the
    string: [datetime] for either of the two date-and-time formats, [date]
    for the date format when neither of those matches, [time] for the time
    format when none of the other three matches. *)
Theorem get_type_datetime_sound `{PyRuntime} (s : string) :
  (get_type s = Ok "datetime"
   <-> py_int s = None /\ py_float s = false
       /\ (py_strptime s "%Y-%m-%d %H:%M:%S" = true
           \/ py_strptime s "%Y-%m-%d %H:%M:%S.%f" = true))
  /\ (get_type s = Ok "date"
      <-> py_int s = None /\ py_float s = false
          /\ py_strptime s "%Y-%m-%d %H:%M:%S" = false
          /\ py_strptime s "%Y-%m-%d %H:%M:%S.%f" = false
          /\ py_strptime s "%Y-%m-%d" = true)
  /\ (get_type s = Ok "time"
      <-> py_int s = None /\ py_float s = false
          /\ py_strptime s "%Y-%m-%d %H:%M:%S" = false
          /\ py_strptime s "%Y-%m-%d %H:%M:%S.%f" = false
          /\ py_strptime s "%Y-%m-%d" = false
          /\ py_strptime s "%H:%M:%S" = true).
Proof.
  rewrite get_type_unfold.
  destruct (py_int s) as [v|].
  - destruct (Z.abs v >? 2147483647)%Z;
      (split; [|split]); split; try congruence; intros (? & _); congruence.
  - destruct (py_float s);
      [(split; [|split]); split; try congruence; intros (_ & ? & _);
       congruence|].
    destruct (py_strptime s "%Y-%m-%d %H:%M:%S");
      destruct (py_strptime s "%Y-%m-%d %H:%M:%S.%f");
      destruct (py_strptime s "%Y-%m-%d");
      destruct (py_strptime s "%H:%M:%S");
      try destruct (Nat.ltb 255 (String.length s));
      (split; [|split]); split; intros Hx;
      try reflexivity; try congruence;
      try (repeat split; first [reflexivity | left; reflexivity
                               | right; reflexivity]);
      try (decompose [and or] Hx; congruence).
Qed.

(** ** Further properties of the aggregator *)

Lemma most_common_returns (l : list string) (default : string) :
  exists r,
    most_common l default = Ok r
    /\ (l = [] -> r = default)
    /\ (l <> [] -> In r l).
Proof.
  destruct l as [|a l].
  - exists default. split; [reflexivity|]. split; [reflexivity | congruence].
  - unfold most_common, first_in.
    destruct (elem "text" (a :: l)) eqn:Et.
    { exists "text". split; [reflexivity|].
      split; [discriminate | intros _; now apply elem_In]. }
    destruct (elem "bigint" (a :: l)) eqn:Eb.
    { exists "bigint". split; [reflexivity|].
      split; [discriminate | intros _; now apply elem_In]. }
    destruct (py_max_first (count (a :: l)) (a :: l))
      as (r & pre & post & Hr & Hl & _); [discriminate|].
    exists r. split; [exact Hr|]. split; [discriminate|].
    intros _. rewrite Hl. apply in_or_app. right. now left.
Qed.

(** X4. [most_common] never raises, although [max] refuses an empty
    sequence: it is only called on a list with an element. The result is
    the default for the empty list and one of the list's own elements
    otherwise. *)
Theorem most_common_observed (l : list string) (default : string) :
  exists r,
    most_common l default = Ok r
    /\ (l = [] -> r = default)
    /\ (l <> [] -> In r l).
Proof. exact (most_common_returns l default). Qed.

Lemma winner_inferred (l : list string) :
  Forall (fun t => In t inferred_types) l -> In (winner l) inferred_types.
Proof.
  intros Hl. unfold winner.
  destruct (most_common_returns l most_common_default) as (r & -> & H0 & H1).
  destruct l as [|a l].
  - rewrite H0 by reflexivity. simpl. auto 10.
  - rewrite Forall_forall in Hl. apply Hl. apply list_elem_of_In.
    now apply H1.
Qed.

(** The rows of the window, one step of the loop at a time. *)
Lemma sample_window_cons (max_rows : Z) (row_i : nat) (row : list string)
    (data : list (list string)) :
  row_i <> 0 ->
  (max_rows < 0 \/ Z.of_nat row_i <= max_rows)%Z ->
  sample_window (max_rows - Z.of_nat row_i + 1) (row :: data)
  = row :: (if (Z.of_nat row_i =? max_rows)%Z then []
            else sample_window (max_rows - Z.of_nat (S row_i) + 1) data).
Proof.
  intros Hi Hw. unfold sample_window.
  destruct (Z.of_nat row_i =? max_rows)%Z eqn:Em.
  - apply Z.eqb_eq in Em.
    destruct (max_rows - Z.of_nat row_i + 1 <? 0)%Z eqn:En;
      [apply Z.ltb_lt in En; lia|].
    replace (max_rows - Z.of_nat row_i + 1)%Z with 1%Z by lia.
    simpl. now rewrite take_0.
  - apply Z.eqb_neq in Em.
    destruct (max_rows - Z.of_nat row_i + 1 <? 0)%Z eqn:En.
    + apply Z.ltb_lt in En.
      destruct (max_rows - Z.of_nat (S row_i) + 1 <? 0)%Z eqn:En';
        [reflexivity | apply Z.ltb_ge in En'; lia].
    + apply Z.ltb_ge in En.
      destruct (max_rows - Z.of_nat (S row_i) + 1 <? 0)%Z eqn:En';
        [apply Z.ltb_lt in En'; lia|].
      replace (Z.to_nat (max_rows - Z.of_nat row_i + 1))
        with (S (Z.to_nat (max_rows - Z.of_nat (S row_i) + 1))) by lia.
      reflexivity.
Qed.

Section Window.
Context `{PyRuntime}.

(** The loop reads the rows of the window and no other. *)
Lemma sample_rows_window (max_rows : Z) (data : list (list string)) :
  forall (row_i : nat) (header : option (list string))
         (csv_types : gmap string (list string)),
    row_i <> 0 ->
    (max_rows < 0 \/ Z.of_nat row_i <= max_rows)%Z ->
    sample_rows max_rows row_i data header csv_types
    = sample_rows max_rows row_i
        (sample_window (max_rows - Z.of_nat row_i + 1) data) header csv_types.
Proof.
  induction data as [|row data IH]; intros row_i header csv_types Hi Hw.
  - unfold sample_window. destruct (_ <? 0)%Z; [|rewrite take_nil];
      reflexivity.
  - rewrite sample_window_cons by assumption.
    simpl sample_rows.
    destruct (Nat.eqb row_i 0) eqn:E0; [apply Nat.eqb_eq in E0; lia|].
    destruct (h <- local header;; t <- classify_cells h 0 row csv_types;;
              Ok (header, t)) as [st|e]; [|reflexivity].
    simpl rbind.
    destruct (Z.of_nat row_i =? max_rows)%Z eqn:Em; [reflexivity|].
    apply Z.eqb_neq in Em. apply IH; lia.
Qed.

(** A row of the window with more fields than the header stops the loop. *)
Lemma sample_rows_long_window (max_rows : Z) (header : list string)
    (data : list (list string)) :
  forall (row_i : nat) (csv_types : gmap string (list string)),
    row_i <> 0 ->
    (max_rows < 0 \/ Z.of_nat row_i <= max_rows)%Z ->
    Exists (fun row => length header < length row)
           (sample_window (max_rows - Z.of_nat row_i + 1) data) ->
    sample_rows max_rows row_i data (Some header) csv_types
    = Raise IndexError.
Proof.
  induction data as [|row data IH]; intros row_i csv_types Hi Hw Hlong.
  - exfalso. unfold sample_window in Hlong.
    destruct (_ <? 0)%Z; [|rewrite take_nil in Hlong];
      apply Exists_nil in Hlong; exact Hlong.
  - rewrite sample_window_cons in Hlong by assumption.
    simpl sample_rows.
    destruct (Nat.eqb row_i 0) eqn:E0; [apply Nat.eqb_eq in E0; lia|].
    simpl local. simpl rbind.
    destruct (Nat.le_gt_cases (length row) (length header)) as [Hr | Hr].
    + apply Exists_cons in Hlong as [Hlong | Hlong]; [lia|].
      destruct (proj1 (classify_cells_outcome header row 0 csv_types))
        as [t ->]; [lia|].
      simpl rbind.
      destruct (Z.of_nat row_i =? max_rows)%Z eqn:Em;
        [apply Exists_nil in Hlong; destruct Hlong|].
      apply Z.eqb_neq in Em. apply IH; [lia | lia | assumption].
    + rewrite (proj2 (classify_cells_outcome header row 0 csv_types)) by lia.
      reflexivity.
Qed.

Lemma get_col_types_long_window (max_rows : Z) (header : list string)
    (data : list (list string)) :
  Exists (fun row => length header < length row)
         (sample_window max_rows data) ->
  get_col_types (header :: data) max_rows = Raise IndexError.
Proof.
  intros Hlong. unfold get_col_types. rewrite sample_rows_header.
  destruct (0 =? max_rows)%Z eqn:E0.
  - apply Z.eqb_eq in E0. subst max_rows. simpl in Hlong.
    apply Exists_nil in Hlong. destruct Hlong.
  - apply Z.eqb_neq in E0.
    rewrite (sample_rows_long_window max_rows header data 1 ∅);
      [reflexivity | lia | lia |].
    replace (max_rows - Z.of_nat 1 + 1)%Z with max_rows by lia.
    assumption.
Qed.

End Window.

(** X5. The sampling pass fails in two ways only. It raises
    [UnboundLocalError] exactly on a file without records, and [IndexError]
    exactly when a row of the sample window has more fields than the
    header; in every other case it returns. *)
Theorem get_col_types_outcome `{PyRuntime} (rows : list (list string))
    (max_rows : Z) :
  (get_col_types rows max_rows = Raise UnboundLocalError <-> rows = [])
  /\ (get_col_types rows max_rows = Raise IndexError
      <-> exists header data,
            rows = header :: data
            /\ Exists (fun row => length header < length row)
                      (sample_window max_rows data))
  /\ (forall e, get_col_types rows max_rows = Raise e ->
                e = UnboundLocalError \/ e = IndexError).
Proof.
  destruct rows as [|header data].
  - split; [split; reflexivity|]. split.
    + split; [discriminate | intros (h & d & E & _); discriminate].
    + intros e E. injection E as <-. now left.
  - destruct (decide (Exists (fun row => length header < length row)
                              (sample_window max_rows data)))
      as [Hlong | Hshort].
    + rewrite (get_col_types_long_window max_rows header data Hlong).
      split; [split; discriminate|]. split.
      * split; [|reflexivity]. intros _. now exists header, data.
      * intros e E. injection E as <-. now right.
    + rewrite get_col_types_by_name.
      * split; [split; discriminate|]. split; [|discriminate].
        split; [discriminate|].
        intros (h & d & E & Hlong). injection E as <- <-. contradiction.
      * apply Forall_forall. intros row Hrow.
        destruct (Nat.le_gt_cases (length row) (length header)); [assumption|].
        exfalso. apply Hshort. apply Exists_exists. eauto.
Qed.

Lemma get_col_types_shape `{PyRuntime} (header : list string)
    (data : list (list string)) (max_rows : Z) (types : list string) :
  get_col_types (header :: data) max_rows = Ok types ->
  length types = length header
  /\ Forall (fun t => In t inferred_types) types.
Proof.
  intros Hok.
  destruct (decide (Exists (fun row => length header < length row)
                           (sample_window max_rows data)))
    as [Hlong | Hshort].
  - rewrite (get_col_types_long_window max_rows header data Hlong) in Hok.
    discriminate.
  - rewrite get_col_types_by_name in Hok.
    + injection Hok as <-. split; [apply length_map|].
      apply Forall_forall. intros t Ht.
      apply list_elem_of_fmap in Ht as (name & -> & _).
      apply winner_inferred. apply Forall_forall. intros c Hc.
      apply list_elem_of_fmap in Hc as (s & -> & _).
      unfold classified. now destruct (get_type_returns s) as (t & -> & Hin).
    + apply Forall_forall. intros row Hrow.
      destruct (Nat.le_gt_cases (length row) (length header)); [assumption|].
      exfalso. apply Hshort. apply Exists_exists. eauto.
Qed.

(** X6. When the sampling pass returns, it returns one type for each cell
    of the header row, each of them one of the eight inferred types. *)
Theorem get_col_types_well_formed `{PyRuntime} (header : list string)
    (data : list (list string)) (max_rows : Z) (types : list string) :
  get_col_types (header :: data) max_rows = Ok types ->
  length types = length header
  /\ Forall (fun t => In t inferred_types) types.
Proof. apply get_col_types_shape. Qed.

(** A file of two columns and two data rows. *)
Lemma get_col_types_well_formed_witness :
  length ["int"; "double"] = length ["a"; "b"]
  /\ Forall (fun t => In t inferred_types) ["int"; "double"].
Proof.
  apply (@get_col_types_well_formed ascii_runtime ["a"; "b"]
           [["1"; "2.5"]; ["3"]] 1000 ["int"; "double"]).
  reflexivity.
Defined.

(** X7. The types depend on the header and on the sample window only: the
    rows after the window are not read, so a long or odd row there changes
    neither the result nor the failure. *)
Theorem get_col_types_window_only `{PyRuntime} (header : list string)
    (data : list (list string)) (max_rows : Z) :
  get_col_types (header :: data) max_rows
  = get_col_types (header :: sample_window max_rows data) max_rows.
Proof.
  unfold get_col_types. rewrite !sample_rows_header.
  destruct (0 =? max_rows)%Z eqn:E0; [reflexivity|].
  apply Z.eqb_neq in E0.
  rewrite (sample_rows_window max_rows data 1) by lia.
  replace (max_rows - Z.of_nat 1 + 1)%Z with max_rows by lia.
  reflexivity.
Qed.

(** X8. With nothing to sample, every column is [varchar(255)]: on a file
    that has only its header row, and on any file under the bound 0. *)
Theorem get_col_types_no_sample `{PyRuntime} (header : list string)
    (data : list (list string)) (max_rows : Z) :
  get_col_types [header] max_rows
  = Ok (replicate (length header) "varchar(255)")
  /\ get_col_types (header :: data) 0
     = Ok (replicate (length header) "varchar(255)").
Proof.
  assert (Hmap : forall l : list string,
             map (fun _ : string => winner []) l
             = replicate (length l) "varchar(255)").
  { induction l as [|x l IH]; [reflexivity|]. simpl. now rewrite IH. }
  split.
  - rewrite get_col_types_by_name.
    + unfold sample_window. destruct (max_rows <? 0)%Z;
        [|rewrite take_nil]; simpl; now rewrite Hmap.
    + unfold sample_window. destruct (max_rows <? 0)%Z;
        [|rewrite take_nil]; constructor.
  - rewrite get_col_types_by_name.
    + simpl. now rewrite Hmap.
    + simpl. constructor.
Qed.

(** ** Further properties of the header normalizer *)

Lemma append_length (a b : string) :
  String.length (a +:+ b) = String.length a + String.length b.
Proof.
  induction a as [|x a IH]; [reflexivity|].
  change (S (String.length (a +:+ b)) = S (String.length a + String.length b)).
  now rewrite IH.
Qed.

Lemma append_inj_r (c a b : string) : a +:+ c = b +:+ c -> a = b.
Proof.
  revert b. induction a as [|x a IH]; intros [|y b] E.
  - reflexivity.
  - apply (f_equal String.length) in E. rewrite !append_length in E.
    simpl in E. lia.
  - apply (f_equal String.length) in E. rewrite !append_length in E.
    simpl in E. lia.
  - change (String x (a +:+ c) = String y (b +:+ c)) in E.
    injection E as -> E. f_equal. now apply IH.
Qed.

Lemma append_inj_l (c a b : string) : c +:+ a = c +:+ b -> a = b.
Proof.
  induction c as [|x c IH]; intros E; [exact E|].
  change (String x (c +:+ a) = String x (c +:+ b)) in E.
  injection E as E. now apply IH.
Qed.

Lemma str_of_nat_inj (n m : nat) : str_of_nat n = str_of_nat m -> n = m.
Proof.
  unfold str_of_nat. intros E.
  apply DecimalNat.Unsigned.to_uint_inj.
  apply (f_equal NilEmpty.uint_of_string) in E.
  rewrite !NilEmpty.usu in E. now injection E.
Qed.

Lemma str_of_nat_nonempty (n : nat) : str_of_nat n <> "".
Proof.
  unfold str_of_nat. intros E.
  apply (f_equal NilEmpty.uint_of_string) in E.
  rewrite NilEmpty.usu in E. simpl in E. injection E as E.
  pose proof (DecimalNat.Unsigned.of_to n) as Hn. rewrite E in Hn.
  simpl in Hn. subst n. discriminate.
Qed.

(** The quoted names of one base at two different counts differ. *)
Lemma quoted_name_inj (base : string) (n m : nat) :
  1 <= n -> 1 <= m -> quoted_name base n = quoted_name base m -> n = m.
Proof.
  intros Hn Hm E. unfold quoted_name in E.
  apply append_inj_l, append_inj_r in E.
  destruct (Nat.ltb 1 n) eqn:En, (Nat.ltb 1 m) eqn:Em.
  - apply append_inj_l in E. now apply str_of_nat_inj.
  - exfalso. rewrite <- (append_nil_r base) in E at 2.
    apply append_inj_l in E. now apply (str_of_nat_nonempty n).
  - exfalso. rewrite <- (append_nil_r base) in E at 1.
    apply append_inj_l in E. now apply (str_of_nat_nonempty m).
  - apply Nat.ltb_ge in En, Em. lia.
Qed.

Lemma count_take_mono (l : list string) (x : string) (i j : nat) :
  i < j -> l !! j = Some x ->
  count (take (S i) l) x < count (take (S j) l) x.
Proof.
  intros Hij Hj. unfold count.
  rewrite (take_S_r l j x Hj), count_occ_app.
  rewrite <- (take_drop (S i) (take j l)), take_take, count_occ_app.
  replace (S i `min` j) with (S i) by lia.
  simpl. destruct (string_dec x x); [lia | congruence].
Qed.

Lemma count_take_pos (l : list string) (x : string) (j : nat) :
  l !! j = Some x -> 1 <= count (take (S j) l) x.
Proof.
  intros Hj. unfold count. rewrite (take_S_r l j x Hj), count_occ_app.
  simpl. destruct (string_dec x x); [lia | congruence].
Qed.

(** X9. Two columns with the same sanitized name never get the same
    normalized name: the occurrence count sets them apart. *)
Theorem format_header_same_base_distinct `{PyRuntime} (row : list string)
    (i j : nat) (ci cj : string) :
  i <> j ->
  row !! i = Some ci -> row !! j = Some cj ->
  safe_col ci = safe_col cj ->
  format_header row !! i <> format_header row !! j.
Proof.
  intros Hij Hi Hj Hb.
  rewrite (format_header_lookup row i ci Hi),
    (format_header_lookup row j cj Hj), <- Hb.
  intros E. apply (inj Some) in E.
  assert (Hsi : map safe_col row !! i = Some (safe_col ci))
    by now rewrite list_lookup_fmap, Hi.
  assert (Hsj : map safe_col row !! j = Some (safe_col ci))
    by now rewrite list_lookup_fmap, Hj, Hb.
  rewrite <- !firstn_map in E.
  apply quoted_name_inj in E;
    [| now apply count_take_pos | now apply count_take_pos].
  destruct (Nat.lt_total i j) as [Hlt | [Heq | Hlt]]; [| congruence |].
  - pose proof (count_take_mono _ _ i j Hlt Hsj). lia.
  - pose proof (count_take_mono _ _ j i Hlt Hsi). lia.
Qed.

(** The first and the third column of this header are both sanitized to
    [date]. *)
Lemma format_header_same_base_distinct_witness :
  format_header ["date"; "x"; "Date "] !! 0
  <> format_header ["date"; "x"; "Date "] !! 2.
Proof.
  apply (@format_header_same_base_distinct ascii_runtime
           ["date"; "x"; "Date "] 0 2 "date" "Date ");
    [lia | reflexivity | reflexivity | reflexivity].
Defined.

Lemma count_NoDup_take (l : list string) (x : string) (j : nat) :
  NoDup l -> l !! j = Some x -> count (take (S j) l) x = 1.
Proof.
  intros Hnd Hj.
  assert (Hle : count (take (S j) l) x <= 1).
  { unfold count.
    assert (Hnd' : NoDup (take (S j) l)).
    { rewrite <- (take_drop (S j) l) in Hnd. now apply NoDup_app in Hnd. }
    apply NoDup_ListNoDup in Hnd'.
    apply (proj1 (List.NoDup_count_occ string_dec _) Hnd'). }
  pose proof (count_take_pos l x j Hj). lia.
Qed.

(** X10. When the sanitized names of the header are pairwise distinct,
    nothing is renamed: each column gets its sanitized name between quotes,
    and the normalized names are pairwise distinct. *)
Theorem format_header_distinct_bases `{PyRuntime} (row : list string) :
  NoDup (map safe_col row) ->
  format_header row = map (fun col => "`" +:+ safe_col col +:+ "`") row
  /\ NoDup (format_header row).
Proof.
  intros Hnd.
  assert (E : format_header row
              = map (fun col => "`" +:+ safe_col col +:+ "`") row).
  { apply list_eq. intros j. rewrite list_lookup_fmap.
    destruct (row !! j) as [col|] eqn:Hj.
    - rewrite (format_header_lookup row j col Hj). simpl. f_equal.
      rewrite <- firstn_map.
      rewrite (count_NoDup_take (map safe_col row) (safe_col col) j Hnd);
        [reflexivity|].
      now rewrite list_lookup_fmap, Hj.
    - apply lookup_ge_None. rewrite format_header_length.
      now apply lookup_ge_None. }
  split; [exact E|]. rewrite E.
  rewrite <- (map_map safe_col (fun b => "`" +:+ b +:+ "`")).
  apply NoDup_ListNoDup.
  apply NoDup_map_NoDup_ForallPairs; [|now apply NoDup_ListNoDup].
  intros a b _ _ Hab. now apply append_inj_l, append_inj_r in Hab.
Qed.

(** The header [Id, First Name, e-mail]. *)
Lemma format_header_distinct_bases_witness :
  format_header ["Id"; "First Name"; "e-mail"]
  = ["`id`"; "`first_name`"; "`e_mail`"]
  /\ NoDup (format_header ["Id"; "First Name"; "e-mail"]).
Proof.
  apply (@format_header_distinct_bases ascii_runtime
           ["Id"; "First Name"; "e-mail"]).
  change (NoDup ["id"; "first_name"; "e_mail"]).
  apply NoDup_ListNoDup. repeat constructor; simpl; intuition discriminate.
Defined.

(** ** The run as a whole *)

(** X11. In a run, the CREATE TABLE statement declares every column of the
    header, in header order, each with the type inferred for its position:
    the sampling pass returns as many types as the header has cells, the
    normalizer keeps the number of names, and no quoted name is skipped. *)
Theorem schema_declares_every_column `{PyRuntime} (table : string)
    (hrow : list string) (data : list (list string)) (max_rows : Z)
    (types : list string) :
  get_col_types (hrow :: data) max_rows = Ok types ->
  get_schema table (format_header hrow) types
  = "CREATE TABLE IF NOT EXISTS `" +:+ table +:+ "` (" +:+ nl +:+ nl
    +:+ "        "
    +:+ column_clauses (zip (format_header hrow) types)
    +:+ nl +:+ "PRIMARY KEY (id)" +:+ nl
    +:+ "        ) DEFAULT CHARSET=utf8;"
  /\ map fst (zip (format_header hrow) types) = format_header hrow
  /\ map snd (zip (format_header hrow) types) = types.
Proof.
  intros Hok. apply get_col_types_shape in Hok as [Hlen _].
  pose proof (format_header_length hrow) as Hfl.
  split; [|split].
  - rewrite get_schema_clauses.
    now rewrite (filter_not_id_all _ _ (format_header_not_id hrow)).
  - apply fst_zip. lia.
  - apply snd_zip. lia.
Qed.

(** The header [id,name] with one data row. *)
Lemma schema_declares_every_column_witness :
  map fst (zip (format_header ["id"; "name"]) ["int"; "varchar(255)"])
  = format_header ["id"; "name"].
Proof.
  apply (@schema_declares_every_column ascii_runtime "t" ["id"; "name"]
           [["1"; "Alice"]] 1000 ["int"; "varchar(255)"]).
  reflexivity.
Defined.

(** X12. The whole of a run. On a file whose first record has a field and
    whose sampled rows have no more fields than it, with a batch size other
    than zero, [main] connects, creates and selects the database, drops and
    creates the table with the inferred types, creates the index, inserts
    every data row in order, padded to the header's length, committing after
    the rows whose position is a multiple of the batch size, commits once
    more and returns. Rows after the sample window may be of any length. *)
Theorem main_end_to_end `{PyRuntime} (hrow : list string)
    (data : list (list string))
    (user password host table database : string) (max_inserts : Z) :
  hrow <> [] ->
  Forall (fun row => length row <= length hrow)
         (sample_window get_col_types_max_rows data) ->
  max_inserts <> 0%Z ->
  main (hrow :: data) user password host table database max_inserts
  = ([Connect host user password;
      Execute ("CREATE DATABASE IF NOT EXISTS `" +:+ database +:+ "`;") None;
      SelectDb database]
     ++ create_table_calls table (format_header hrow)
          (map (fun name =>
                  winner (map classified
                            (flat_map (cells_named hrow name)
                               (sample_window get_col_types_max_rows data))))
               hrow)
     ++ flat_map (fun '(i, row) =>
                    insert_calls (get_insert table (format_header hrow))
                      max_inserts i
                      (row ++ replicate (length hrow - length row) ""))
                 (enumerate 1 data)
     ++ [Commit],
     Ok tt).
Proof.
  intros Hh Hshort Hm.
  rewrite (main_runs_load _ _ _ _ _ _ _ _
             (get_col_types_by_name _ hrow data Hshort)).
  rewrite (load_trace table _ max_inserts [] hrow data
             ltac:(constructor) Hh Hm).
  assert (Hfm :
            flat_map (fun '(i, row) =>
                        insert_calls (get_insert table (format_header hrow))
                          max_inserts i
                          (pad_row (length (format_header hrow)) row))
                     (enumerate 1 data)
            = flat_map (fun '(i, row) =>
                          insert_calls (get_insert table (format_header hrow))
                            max_inserts i
                            (row ++ replicate (length hrow - length row) ""))
                       (enumerate 1 data)).
  { apply flat_map_ext. intros [i row].
    now rewrite pad_row_replicate, format_header_length. }
  cbn [fst snd].
  change (enumerate (S (length (@nil (list string)))) data)
    with (enumerate 1 data).
  rewrite Hfm. reflexivity.
Qed.

(** A file of three data rows, the second one short. *)
Lemma main_end_to_end_witness :
  snd (main [["id"; "name"]; ["1"; "Alice"]; ["2"]; ["3"; "Eve"]]
            "root" "" "localhost" "people" "test" 10000)
  = Ok tt.
Proof.
  refine (f_equal snd
            (@main_end_to_end ascii_runtime ["id"; "name"]
               [["1"; "Alice"]; ["2"]; ["3"; "Eve"]]
               "root" "" "localhost" "people" "test" 10000 _ _ _));
    [discriminate | repeat constructor | lia].
Defined.

(** X13. With a batch size of zero the load stops on [ZeroDivisionError]
    right after the first insert: the table has been dropped and created,
    one row is inserted, no other row is, and nothing is committed. *)
Theorem load_zero_batch `{PyRuntime} (table : string)
    (col_types : list string) (blanks : list (list string))
    (hrow row : list string) (data : list (list string)) :
  Forall (fun r => r = []) blanks -> hrow <> [] ->
  load table col_types 0 (blanks ++ hrow :: row :: data)
  = (flat_map (fun r => create_table_calls table (format_header r) col_types)
              (blanks ++ [hrow])
     ++ [Execute (get_insert table (format_header hrow))
                 (Some (row ++ replicate (length hrow - length row) ""))],
     Raise ZeroDivisionError).
Proof.
  intros Hb Hh. unfold load. rewrite load_rows_app.
  destruct (load_rows_blank table col_types 0 blanks Hb
              {| st_header := None; st_insert_sql := None |} 0)
    as (st & -> & Hst); [now left|].
  simpl io_bind. simpl load_rows.
  rewrite (load_row_no_header table col_types 0 st (length blanks) hrow Hst).
  simpl io_bind.
  assert (Hne : format_header hrow <> []).
  { intros E. apply (f_equal length) in E.
    rewrite format_header_length in E. destruct hrow; [congruence|].
    discriminate. }
  unfold load_row. simpl st_header. simpl st_insert_sql.
  destruct (format_header hrow) as [|h0 header] eqn:Eh; [congruence|].
  rewrite <- Eh. rewrite pad_row_replicate, format_header_length.
  unfold py_mod, lift, local, emit, io_bind. simpl.
  rewrite flat_map_app. simpl flat_map. rewrite <- !app_assoc.
  rewrite Eh. reflexivity.
Qed.

(** Two data rows: the second is never inserted. *)
Lemma load_zero_batch_witness :
  load "t" ["int"] 0 ([] ++ ["n"] :: ["1"] :: [["2"]])
  = (flat_map (fun r => create_table_calls "t" (format_header r) ["int"])
              ([] ++ [["n"]])
     ++ [Execute (get_insert "t" (format_header ["n"]))
                 (Some (["1"] ++ replicate (length ["n"] - length ["1"]) ""))],
     Raise ZeroDivisionError).
Proof.
  apply (@load_zero_batch ascii_runtime "t" ["int"] [] ["n"] ["1"] [["2"]]);
    [constructor | discriminate].
Defined.

(** ** Sanitized names on ASCII text *)

Lemma lower_word_name_char (c : ascii) :
  AsciiText.is_word (AsciiText.lower_char c) = true ->
  name_char (AsciiText.lower_char c) = true.
Proof.
  destruct c as [b0 b1 b2 b3 b4 b5 b6 b7].
  destruct b0, b1, b2, b3, b4, b5, b6, b7; vm_compute; intros E;
    first [reflexivity | discriminate E].
Qed.

Lemma sub_runs_name_chars (l : list ascii) :
  Forall (fun c => AsciiText.is_word c = true -> name_char c = true) l ->
  forall in_run : bool,
    Forall (fun c => name_char c = true)
           (AsciiText.sub_runs ["_"%char] in_run l).
Proof.
  induction 1 as [|c l Hc _ IH]; intros in_run; simpl; [constructor|].
  destruct (AsciiText.is_word c) eqn:Ew.
  - constructor; [now apply Hc | apply IH].
  - destruct in_run; [apply IH|]. constructor; [reflexivity | apply IH].
Qed.

Lemma lstrip_char_Forall (P : ascii -> Prop) (c : ascii) (l : list ascii) :
  Forall P l -> Forall P (lstrip_char c l).
Proof.
  induction 1 as [|x l Hx Hl IH]; simpl; [constructor|].
  destruct (Ascii.eqb x c); [exact IH | now constructor].
Qed.

Lemma lstrip_char_head (c : ascii) (l : list ascii) :
  forall x rest, lstrip_char c l = x :: rest -> x <> c.
Proof.
  induction l as [|y l IH]; intros x rest E; simpl in E; [discriminate|].
  destruct (Ascii.eqb y c) eqn:Ey; [now apply (IH x rest)|].
  injection E as <- _. now apply Ascii.eqb_neq.
Qed.

Lemma lstrip_char_snoc (c x : ascii) (l : list ascii) :
  x <> c -> lstrip_char c (l ++ [x]) = lstrip_char c l ++ [x].
Proof.
  intros Hx. induction l as [|y l IH]; simpl.
  - apply Ascii.eqb_neq in Hx. now rewrite Hx.
  - destruct (Ascii.eqb y c); [exact IH | reflexivity].
Qed.

Lemma list_ascii_of_append (a b : string) :
  list_ascii_of_string (a +:+ b)
  = list_ascii_of_string a ++ list_ascii_of_string b.
Proof.
  induction a as [|x a IH]; [reflexivity|].
  change (x :: list_ascii_of_string (a +:+ b)
          = x :: (list_ascii_of_string a ++ list_ascii_of_string b)).
  now rewrite IH.
Qed.

Lemma str_of_nat_name_chars (n : nat) : name_chars (str_of_nat n).
Proof.
  unfold name_chars, str_of_nat.
  induction (Nat.to_uint n) as [|d IH|d IH|d IH|d IH|d IH|d IH|d IH|d IH|d IH|d IH];
    simpl; constructor; first [reflexivity | exact IH].
Qed.

Lemma safe_col_ascii (s : string) :
  @safe_col ascii_runtime s
  = string_of_list_ascii
      (rev (lstrip_char "_"
              (rev (lstrip_char "_"
                      (AsciiText.sub_runs ["_"%char] false
                         (map AsciiText.lower_char
                              (list_ascii_of_string s))))))).
Proof.
  unfold safe_col, strip_char. simpl py_lower. simpl re_sub_nonword.
  unfold AsciiText.sub_nonword, AsciiText.lower.
  now rewrite !list_ascii_of_string_of_list_ascii.
Qed.

Lemma safe_col_name_chars (s : string) :
  name_chars (@safe_col ascii_runtime s).
Proof.
  unfold name_chars. rewrite safe_col_ascii.
  rewrite list_ascii_of_string_of_list_ascii.
  apply Forall_rev, lstrip_char_Forall, Forall_rev, lstrip_char_Forall.
  apply sub_runs_name_chars.
  apply Forall_forall. intros c Hc.
  apply list_elem_of_In, in_map_iff in Hc as (c0 & <- & _).
  apply lower_word_name_char.
Qed.

(** X14. On ASCII text a sanitized name holds lower-case letters, digits
    and underscores only, and neither begins nor ends with an underscore. *)
Theorem safe_col_ascii_safe (s : string) :
  ascii_text s ->
  name_chars (@safe_col ascii_runtime s)
  /\ (forall rest, @safe_col ascii_runtime s <> String "_" rest)
  /\ (forall start, @safe_col ascii_runtime s <> start +:+ "_").
Proof.
  intros _. split; [apply safe_col_name_chars|].
  rewrite safe_col_ascii.
  set (m := lstrip_char "_" (AsciiText.sub_runs ["_"%char] false
                               (map AsciiText.lower_char
                                    (list_ascii_of_string s)))).
  assert (Hm : forall x rest, m = x :: rest -> x <> "_"%char)
    by apply lstrip_char_head.
  split.
  - intros rest E.
    apply (f_equal list_ascii_of_string) in E.
    rewrite list_ascii_of_string_of_list_ascii in E. simpl in E.
    destruct m as [|x m']; [discriminate E|].
    simpl rev in E at 2. rewrite lstrip_char_snoc in E by now apply (Hm x m').
    rewrite rev_app_distr in E. simpl in E. injection E as E _.
    now apply (Hm x m').
  - intros start E.
    apply (f_equal list_ascii_of_string) in E.
    rewrite list_ascii_of_string_of_list_ascii, list_ascii_of_append in E.
    simpl in E. apply (f_equal (@rev ascii)) in E.
    rewrite rev_involutive, rev_app_distr in E. simpl in E.
    now apply lstrip_char_head in E.
Qed.

(** A name with capitals, blanks and marks around it. *)
Lemma safe_col_ascii_safe_witness :
  name_chars (@safe_col ascii_runtime "  Total ($) ")
  /\ (forall rest, @safe_col ascii_runtime "  Total ($) " <> String "_" rest)
  /\ (forall start, @safe_col ascii_runtime "  Total ($) " <> start +:+ "_").
Proof.
  apply (safe_col_ascii_safe "  Total ($) ").
  unfold ascii_text. simpl. repeat constructor.
Defined.

(** X15. On ASCII text every normalized name is a back quote, then
    lower-case letters, digits and underscores only, then a back quote: no
    header cell can put a back quote or any other mark inside the quoted
    name. *)
Theorem format_header_ascii_quoted (row : list string) (j : nat)
    (name : string) :
  Forall ascii_text row ->
  @format_header ascii_runtime row !! j = Some name ->
  exists body, name = "`" +:+ body +:+ "`" /\ name_chars body.
Proof.
  intros _ Hj.
  destruct (row !! j) as [col|] eqn:Hc.
  - rewrite (format_header_lookup row j col Hc) in Hj.
    injection Hj as <-. unfold quoted_name.
    eexists. split; [reflexivity|].
    destruct (Nat.ltb 1 _).
    + unfold name_chars. rewrite list_ascii_of_append.
      apply Forall_app. split;
        [apply safe_col_name_chars | apply str_of_nat_name_chars].
    + apply safe_col_name_chars.
  - apply lookup_ge_None in Hc. rewrite <- format_header_length in Hc.
    apply lookup_ge_None in Hc. congruence.
Qed.

(** The second name of a header with a repeated, marked-up name. *)
Lemma format_header_ascii_quoted_witness :
  exists body, "`total2`" = "`" +:+ body +:+ "`" /\ name_chars body.
Proof.
  apply (format_header_ascii_quoted ["Total $"; "`total`;--"] 1 "`total2`").
  - repeat constructor.
  - reflexivity.
Defined.

(** X16. On ASCII text a header cell without a letter or a digit is
    sanitized to the empty string, so its column is named by two back
    quotes with nothing between them (followed by the count from the second
    such cell on). *)
Theorem safe_col_no_letter_or_digit (s : string) :
  ascii_text s ->
  Forall (fun c => letter_or_digit c = false) (list_ascii_of_string s) ->
  @safe_col ascii_runtime s = ""
  /\ @format_header ascii_runtime [s; s] = ["``"; "`2`"].
Proof.
  intros _ Hs.
  assert (E : @safe_col ascii_runtime s = "").
  { rewrite safe_col_ascii.
    assert (Hu : forall in_run,
               Forall (fun c => c = "_"%char)
                 (AsciiText.sub_runs ["_"%char] in_run
                    (map AsciiText.lower_char (list_ascii_of_string s)))).
    { induction Hs as [|c l Hc _ IH]; intros in_run; simpl; [constructor|].
      assert (Hw : AsciiText.is_word (AsciiText.lower_char c) = true ->
                   AsciiText.lower_char c = "_"%char).
      { revert Hc. clear. destruct c as [b0 b1 b2 b3 b4 b5 b6 b7].
        destruct b0, b1, b2, b3, b4, b5, b6, b7; vm_compute; intros E1 E2;
          first [reflexivity | discriminate E1 | discriminate E2]. }
      destruct (AsciiText.is_word (AsciiText.lower_char c)).
      - constructor; [now apply Hw | apply IH].
      - destruct in_run; [apply IH|]. constructor; [reflexivity | apply IH]. }
    assert (Hl : forall l, Forall (fun c => c = "_"%char) l ->
                           lstrip_char "_" l = []).
    { induction 1 as [|c l -> _ IH]; [reflexivity|]. exact IH. }
    rewrite (Hl _ (Hu false)). reflexivity. }
  split; [exact E|].
  unfold format_header. simpl. rewrite !E. reflexivity.
Qed.

(** A header cell made of a currency sign and blanks. *)
Lemma safe_col_no_letter_or_digit_witness :
  @safe_col ascii_runtime " $ " = ""
  /\ @format_header ascii_runtime [" $ "; " $ "] = ["``"; "`2`"].
Proof.
  apply (safe_col_no_letter_or_digit " $ ").
  - unfold ascii_text. simpl. repeat constructor.
  - repeat constructor.
Defined.

(** X17. A column whose sampled cells all have the same type gets that
    type. *)
Theorem most_common_uniform (t : string) (l : list string) (default : string) :
  l <> [] -> Forall (fun x => x = t) l -> most_common l default = Ok t.
Proof.
  intros Hne Hl.
  destruct (most_common_returns l default) as (r & -> & _ & Hin).
  f_equal. rewrite Forall_forall in Hl. apply Hl, list_elem_of_In.
  now apply Hin.
Qed.

(** Three dates. *)
Lemma most_common_uniform_witness :
  most_common ["date"; "date"; "date"] most_common_default = Ok "date".
Proof.
  apply (most_common_uniform "date" ["date"; "date"; "date"]);
    [discriminate | repeat constructor].
Defined.
